(** * Odd-Even policy analysis: a shallow embedding of [analysis.py]

    The development follows the script top to bottom:

    - [Dates]: the calendar arithmetic behind [pd.to_datetime],
      [pd.Timedelta(days=1)] and [pd.DateOffset(years=1)];
    - the rows of the data frame and the cleaning steps ([ffill], [dropna]);
    - the labelling closure [get_policy_status] over [policy_periods];
    - a small trace-and-error monad in which [load_and_prepare_real_data],
      [perform_statistical_analysis], [create_visualizations] and the main
      block are written; a function that receives the frame returns the
      state of the frame at its end, so that a change of the shared object
      would be seen by the caller.

    Modelling conventions.
    - A [Timestamp] at midnight is the number of days since 1970-01-01
      (an integer); the data set and the configuration hold calendar dates.
    - A float cell is [option Q]: [None] is NaN (a missing value), [Some q]
      an observed value.  Rounding of binary floats is not modelled.
    - [df[col].ffill(inplace=True)] updates the frame (the behaviour of
      pandas without copy-on-write, which the script relies on).
    - [pd.read_csv] and scipy's [mannwhitneyu] are collaborators: they are
      arguments of the functions that call them, and every call is
      recorded in the trace. *)

From Stdlib Require Import ZArith QArith List String Ascii Bool Lia Lqa.
Import ListNotations.
Local Open Scope Z_scope.

(* ====================================================================== *)
(** ** Calendar dates *)
(* ====================================================================== *)

Module Dates.

(** A [Timestamp] at midnight: days since the epoch 1970-01-01. *)
Definition Timestamp := Z.

Definition is_leap (y : Z) : bool :=
  ((y mod 4 =? 0) && negb (y mod 100 =? 0)) || (y mod 400 =? 0).

Definition days_in_month (y m : Z) : Z :=
  if m =? 2 then (if is_leap y then 29 else 28)
  else if (m =? 4) || (m =? 6) || (m =? 9) || (m =? 11) then 30
  else 31.

(** Days of year [y] that precede the first of month [m]. *)
Definition days_before_month (y m : Z) : Z :=
  let common :=
    match m with
    | 1 => 0 | 2 => 31 | 3 => 59 | 4 => 90 | 5 => 120 | 6 => 151
    | 7 => 181 | 8 => 212 | 9 => 243 | 10 => 273 | 11 => 304 | _ => 334
    end in
  if (2 <? m) && is_leap y then common + 1 else common.

(** Days from 0001-01-01 to the first of January of year [y]. *)
Definition days_before_year (y : Z) : Z :=
  let p := y - 1 in p * 365 + p / 4 - p / 100 + p / 400.

Definition year_length (y : Z) : Z := if is_leap y then 366 else 365.

(** The order of calendar dates: by year, then month, then day. *)
Definition civil_lt (a b : Z * Z * Z) : Prop :=
  let '(y, m, d) := a in
  let '(y', m', d') := b in
  y < y' \/ (y = y' /\ (m < m' \/ (m = m' /\ d < d'))).

(** 1970-01-01 is day 719163 of the proleptic Gregorian calendar. *)
Definition epoch : Z := 719163.

Definition valid_date (y m d : Z) : bool :=
  (1 <=? m) && (m <=? 12) && (1 <=? d) && (d <=? days_in_month y m).

Definition days_from_civil (y m d : Z) : Timestamp :=
  days_before_year y + days_before_month y m + d - epoch.

(** The year of the day with ordinal [n] (day 1 is 0001-01-01): an
    estimate from the mean length of a year, 146097 / 400 days, which is
    off by at most one, then the correction. *)
Definition year_of_ordinal (n : Z) : Z :=
  let y := 400 * n / 146097 + 1 in
  if n <=? days_before_year y then y - 1
  else if days_before_year (y + 1) <? n then y + 1
  else y.

(** The month and the day of the month of the day numbered [days]
    (from 0) in year [y], walking down the lengths of the months. *)
Fixpoint scan_months (y m days : Z) (fuel : nat) : Z * Z :=
  match fuel with
  | O => (m, days + 1)
  | S fuel' =>
      if days <? days_in_month y m then (m, days + 1)
      else scan_months y (m + 1) (days - days_in_month y m) fuel'
  end.

Definition civil_from_days (t : Timestamp) : Z * Z * Z :=
  let n := t + epoch in
  let y := year_of_ordinal n in
  let '(m, d) := scan_months y 1 (n - days_before_year y - 1) 11 in
  (y, m, d).

(** [ts - pd.DateOffset(years=n)]: same month and day [n] years earlier,
    the day clamped to the length of the target month (29 February of a
    leap year goes to 28 February). *)
Definition sub_years (n : Z) (t : Timestamp) : Timestamp :=
  let '(y, m, d) := civil_from_days t in
  let y' := y - n in
  days_from_civil y' m (Z.min d (days_in_month y' m)).

(** [ts - pd.Timedelta(days=n)]. *)
Definition sub_days (n : Z) (t : Timestamp) : Timestamp := t - n.

(** *** Parsing ['YYYY-MM-DD'] *)

Definition digit (c : ascii) : option Z :=
  let n := Z.of_nat (nat_of_ascii c) in
  if (48 <=? n) && (n <=? 57) then Some (n - 48) else None.

Fixpoint number (acc : Z) (cs : list ascii) : option Z :=
  match cs with
  | [] => Some acc
  | c :: cs' =>
      match digit c with
      | Some k => number (10 * acc + k) cs'
      | None => None
      end
  end.

Definition is_dash (c : ascii) : bool := Ascii.eqb c "-"%char.

(** The days a [Timestamp] can hold at midnight (nanoseconds since the
    epoch in 64 bits): 1677-09-22 to 2262-04-11. *)
Definition in_bounds (t : Timestamp) : bool :=
  (days_from_civil 1677 9 22 <=? t) && (t <=? days_from_civil 2262 4 11).

(** [pd.to_datetime(s)] on a calendar date written ['YYYY-MM-DD'], the
    form of the dictionary of the script and of its data set.  A date
    that does not exist or that a [Timestamp] cannot hold gives [None],
    for the [ValueError] pandas raises.  Other spellings of a date, which
    pandas may read, are not modelled: they give [None] as well, and the
    statements below rely on [to_datetime] only where it returns a day. *)
Definition to_datetime (s : string) : option Timestamp :=
  match list_ascii_of_string s with
  | [y1; y2; y3; y4; s1; m1; m2; s2; d1; d2] =>
      if is_dash s1 && is_dash s2 then
        match number 0 [y1; y2; y3; y4], number 0 [m1; m2], number 0 [d1; d2] with
        | Some y, Some m, Some d =>
            if valid_date y m d && in_bounds (days_from_civil y m d)
            then Some (days_from_civil y m d) else None
        | _, _, _ => None
        end
      else None
  | _ => None
  end.

End Dates.
Import Dates.

(* ====================================================================== *)
(** ** Data frames *)
(* ====================================================================== *)

(** A float cell: [None] is NaN. *)
Definition float := option Q.

(** A cell of a column the script never names (the CSV may carry any
    number of them besides [City], [Date], [PM2.5] and [NO2]). *)
Inductive cell : Type :=
| Num (q : Q)
| Str (s : string).

(** A row as [pd.read_csv] delivers it. *)
Record RawRow : Type := mkRawRow {
  raw_City : string;
  raw_Date : string;
  raw_PM25 : float;
  raw_NO2 : float;
  raw_others : list (option cell)
}.

(** A row of [df_delhi] once [Date] is the index and the two pollutant
    columns are renamed. *)
Record Row : Type := mkRow {
  Date : Timestamp;
  City : string;
  pm25 : float;
  no2 : float;
  others : list (option cell)
}.

(** A row of the frame after the [policy_status] column is added. *)
Record LRow : Type := mkLRow {
  base : Row;
  policy_status : string
}.

Definition set_pm25 (v : float) (r : Row) : Row :=
  mkRow (Date r) (City r) v (no2 r) (others r).

Definition set_no2 (v : float) (r : Row) : Row :=
  mkRow (Date r) (City r) (pm25 r) v (others r).

Definition isna {A : Type} (c : option A) : bool :=
  match c with Some _ => false | None => true end.

Definition notna {A : Type} (c : option A) : bool := negb (isna c).

(** One step of a forward fill: the cell keeps its value, a missing cell
    takes the last value seen above it. *)
Definition fill (last cur : float) : float :=
  match cur with
  | Some x => Some x
  | None => last
  end.

(** [df[col].ffill(inplace=True)], for the column read by [get] and
    written by [set]; [last] is the value carried down from above. *)
Fixpoint ffill_from (get : Row -> float) (set : float -> Row -> Row)
    (last : float) (df : list Row) : list Row :=
  match df with
  | [] => []
  | r :: rest =>
      let v := fill last (get r) in
      set v r :: ffill_from get set v rest
  end.

Definition ffill (get : Row -> float) (set : float -> Row -> Row)
    (df : list Row) : list Row :=
  ffill_from get set None df.

(** A row with no NaN in any column.  [City] passed the comparison with
    ['Delhi'], so it is never missing; [Date] is the index, which [dropna]
    does not look at. *)
Definition row_complete (r : Row) : bool :=
  notna (pm25 r) && notna (no2 r) && forallb notna (others r).

(** [df.dropna(inplace=True)]: no [subset], so every column counts. *)
Definition dropna (df : list Row) : list Row := filter row_complete df.

(** Lines 38 to 42 of the script. *)
Definition clean (df : list Row) : list Row :=
  dropna (ffill no2 set_no2 (ffill pm25 set_pm25 df)).

(* ====================================================================== *)
(** ** Outcomes, events and the program monad *)
(* ====================================================================== *)

Inductive exn : Type :=
| ValueError
| IndexError.

(** How a call ends: a value, an exception, or [sys.exit(code)]. *)
Inductive result (A : Type) : Type :=
| Ok (a : A)
| Raise (e : exn)
| SysExit (code : option Z).
Arguments Ok {A} a.
Arguments Raise {A} e.
Arguments SysExit {A} code.

(** The exit status of the interpreter: [sys.exit()] without an argument
    and a normal end give 0, an uncaught exception gives 1. *)
Definition exit_status {A : Type} (r : result A) : Z :=
  match r with
  | Ok _ => 0
  | Raise _ => 1
  | SysExit None => 0
  | SysExit (Some n) => n
  end.

(** The lines the script prints; numbers are kept as values, their
    formatting is not modelled. *)
Inductive line : Type :=
| Loading (filepath : string)
| ErrorNotFound (filepath : string)
| PleaseEnsure
| FoundRows (n : nat)
| PreparationComplete
| AnalysisHeader (phase : string)
| NotEnoughData
| Comparing (phase : string)
| MeanDuring (m : float)
| MeanControl (m : float)
| PValue (p : Q)
| ResultSignificant
| ResultNotSignificant
| GeneratingVisualizations.

Inductive chart : Type :=
| BarChart (mean_data : list (string * float)) (pct_change : float)
| ViolinPlot (comp : list (string * float))
| CalendarHeatmaps (control_year during_year : Z).

(** What the run does that the outside can see: printing, and the calls
    into the collaborators. *)
Inductive event : Type :=
| Printed (l : line)
| ReadCsv (filepath : string)
| MannWhitneyU (x y : list float)
| Shown (c : chart).

Definition Prog (A : Type) : Type := list event * result A.

Definition ret {A : Type} (a : A) : Prog A := ([], Ok a).

Definition bind {A B : Type} (m : Prog A) (k : A -> Prog B) : Prog B :=
  match m with
  | (tr, Ok a) => let '(tr', r) := k a in (tr ++ tr', r)
  | (tr, Raise e) => (tr, Raise e)
  | (tr, SysExit c) => (tr, SysExit c)
  end.

Definition emit (e : event) : Prog unit := ([e], Ok tt).
Definition print (l : line) : Prog unit := emit (Printed l).
Definition raise {A : Type} (e : exn) : Prog A := ([], Raise e).
Definition sys_exit {A : Type} (code : option Z) : Prog A := ([], SysExit code).
Definition lift {A : Type} (r : result A) : Prog A := ([], r).

Declare Scope prog_scope.
Delimit Scope prog_scope with prog.
Notation "x <- m ;; k" := (bind m (fun x => k))
  (at level 61, m at next level, right associativity) : prog_scope.
Notation "m ;; k" := (bind m (fun _ => k))
  (at level 61, right associativity) : prog_scope.

Definition trace {A : Type} (p : Prog A) : list event := fst p.
Definition outcome {A : Type} (p : Prog A) : result A := snd p.

(* ====================================================================== *)
(** ** The labelling closure *)
(* ====================================================================== *)

Local Open Scope string_scope.

(** One entry of the [policy_periods] dictionary. *)
Record period : Type := mkPeriod {
  start : string;
  end_ : string
}.

(** The dictionary literal of lines 46 to 51; a Python [dict] iterates in
    insertion order, so the phases are kept as an association list. *)
Definition policy_periods : list (string * period) :=
  [ ("Phase 1", mkPeriod "2016-01-01" "2016-01-15");
    ("Phase 2", mkPeriod "2016-04-15" "2016-04-30");
    ("Phase 3", mkPeriod "2017-11-13" "2017-11-17");
    ("Phase 4", mkPeriod "2019-11-04" "2019-11-15") ].

(** [get_policy_status] with the dictionary as an argument.  Both dates of
    a phase are parsed when the loop reaches it, as in the source. *)
Fixpoint get_policy_status_in (periods : list (string * period))
    (date : Timestamp) : result string :=
  match periods with
  | [] => Ok "Normal Day"
  | (phase, dates) :: rest =>
      match to_datetime (start dates) with
      | None => Raise ValueError
      | Some start =>
          match to_datetime (end_ dates) with
          | None => Raise ValueError
          | Some end_ =>
              let delta := end_ - start in
              if (start <=? date) && (date <=? end_) then
                Ok ("During " ++ phase)
              else if (sub_days 1 (start - delta) <=? date) && (date <? start) then
                Ok ("Before " ++ phase)
              else if (sub_years 1 start <=? date) && (date <=? sub_years 1 end_) then
                Ok ("Control " ++ phase)
              else get_policy_status_in rest date
          end
      end
  end%Z.

(** The closure of line 53, over the dictionary of the enclosing function. *)
Definition get_policy_status (date : Timestamp) : result string :=
  get_policy_status_in policy_periods date.

(** [series.apply(f)] for an [f] that may raise. *)
Fixpoint apply_status (f : Timestamp -> result string) (df : list Row)
    : result (list LRow) :=
  match df with
  | [] => Ok []
  | r :: rest =>
      match f (Date r) with
      | Ok s =>
          match apply_status f rest with
          | Ok rest' => Ok (mkLRow r s :: rest')
          | Raise e => Raise e
          | SysExit c => SysExit c
          end
      | Raise e => Raise e
      | SysExit c => SysExit c
      end
  end.

(** [pd.to_datetime(df['Date'])] followed by [set_index] and [rename]. *)
Fixpoint index_by_date (df : list RawRow) : result (list Row) :=
  match df with
  | [] => Ok []
  | r :: rest =>
      match to_datetime (raw_Date r) with
      | None => Raise ValueError
      | Some t =>
          match index_by_date rest with
          | Ok rest' =>
              Ok (mkRow t (raw_City r) (raw_PM25 r) (raw_NO2 r) (raw_others r) :: rest')
          | Raise e => Raise e
          | SysExit c => SysExit c
          end
      end
  end.

(* ====================================================================== *)
(** ** Series helpers *)
(* ====================================================================== *)

(** The values of a float column that are not NaN. *)
Fixpoint observed (col : list float) : list Q :=
  match col with
  | [] => []
  | Some x :: rest => x :: observed rest
  | None :: rest => observed rest
  end.

Definition Qsum (xs : list Q) : Q := fold_right Qplus 0%Q xs.

(** [Series.mean()]: NaN cells are skipped; NaN when nothing is left. *)
Definition mean (col : list float) : float :=
  match observed col with
  | [] => None
  | xs => Some (Qsum xs / inject_Z (Z.of_nat (List.length xs)))%Q
  end.

Definition Qltb (x y : Q) : bool :=
  match Qcompare x y with
  | Lt => true
  | _ => false
  end.

(** Float arithmetic on [option Q]; a division by zero gives a value that
    is not finite (numpy warns and goes on), kept as [None]. *)
Definition fsub (a b : float) : float :=
  match a, b with
  | Some x, Some y => Some (x - y)%Q
  | _, _ => None
  end.

Definition fdiv (a b : float) : float :=
  match a, b with
  | Some x, Some y => if Qeq_bool y 0 then None else Some (x / y)%Q
  | _, _ => None
  end.

Definition fmul (a b : float) : float :=
  match a, b with
  | Some x, Some y => Some (x * y)%Q
  | _, _ => None
  end.

(** [needle in s] on Python strings. *)
Fixpoint contains (needle s : string) : bool :=
  if String.prefix needle s then true
  else match s with
       | EmptyString => false
       | String _ s' => contains needle s'
       end.

(** [df[df['policy_status'] == label]['pm25']]. *)
Definition select_pm25 (label : string) (df : list LRow) : list float :=
  map (fun r => pm25 (base r))
      (filter (fun r => String.eqb (policy_status r) label) df).

(** [seq.iloc[0]]. *)
Definition iloc0 {A : Type} (xs : list A) : result A :=
  match xs with
  | x :: _ => Ok x
  | [] => Raise IndexError
  end.

(* ====================================================================== *)
(** ** The script *)
(* ====================================================================== *)

(** The three outcomes the design names for a comparison; the script
    reports them as printed lines. *)
Inductive Verdict : Type :=
| Inconclusive
| SignificantReduction
| NotSignificant.

Definition verdict_of_line (l : line) : option Verdict :=
  match l with
  | NotEnoughData => Some Inconclusive
  | ResultSignificant => Some SignificantReduction
  | ResultNotSignificant => Some NotSignificant
  | _ => None
  end.

(** The verdict a trace reports: that of its last result line. *)
Fixpoint reported_verdict (tr : list event) : option Verdict :=
  match tr with
  | [] => None
  | e :: rest =>
      match reported_verdict rest with
      | Some v => Some v
      | None =>
          match e with
          | Printed l => verdict_of_line l
          | _ => None
          end
      end
  end.

(** The percent change a trace shows on the bar chart, if it shows one. *)
Fixpoint reported_pct_change (tr : list event) : option float :=
  match tr with
  | [] => None
  | Shown (BarChart _ pct) :: _ => Some pct
  | _ :: rest => reported_pct_change rest
  end.

Definition is_test_call (e : event) : bool :=
  match e with
  | MannWhitneyU _ _ => true
  | _ => false
  end.

Definition is_read (e : event) : bool :=
  match e with
  | ReadCsv _ => true
  | _ => false
  end.

Definition empty {A : Type} (xs : list A) : bool :=
  match xs with
  | [] => true
  | _ :: _ => false
  end.

Definition alpha : Q := (5 # 100)%Q.

Definition during_label (phase : string) : string := "During " ++ phase.
Definition control_label (phase : string) : string := "Control " ++ phase.
Definition before_label (phase : string) : string := "Before " ++ phase.

(** The [period] column of [comp_df] (line 110). *)
Definition period_of (status : string) : string :=
  if contains "During" status then "During Policy" else "Control (Prior Year)".

(** [comp_df.groupby('period')[['pm25']].mean().reset_index()]: one row
    per period that occurs, in the order of the keys. *)
Definition groupby_mean (comp : list (string * float)) : list (string * float) :=
  let group k := map snd (filter (fun kv => String.eqb (fst kv) k) comp) in
  flat_map (fun k => if empty (group k) then [] else [(k, mean (group k))])
           ["Control (Prior Year)"; "During Policy"].

(** [mean_data.loc[mean_data['period'] == k, 'pm25']]. *)
Definition loc_period (k : string) (mean_data : list (string * float)) : list float :=
  map snd (filter (fun kv => String.eqb (fst kv) k) mean_data).

(** The dates of the rows with a given label, for [series.index.year]. *)
Definition select_index (label : string) (df : list LRow) : list Timestamp :=
  map (fun r => Date (base r))
      (filter (fun r => String.eqb (policy_status r) label) df).

Definition year_of (t : Timestamp) : Z := fst (fst (civil_from_days t)).

Section Script.

(** The collaborators: what [pd.read_csv] finds at a path ([None] when
    it raises [FileNotFoundError]) and scipy's rank-sum test with
    [alternative='less'], returning the statistic and the p-value. *)
Variable read_csv : string -> option (list RawRow).
Variable mannwhitneyu : list float -> list float -> Q * Q.

Local Open Scope prog_scope.

Definition load_and_prepare_real_data (filepath : string) : Prog (list LRow) :=
  print (Loading filepath) ;;
  emit (ReadCsv filepath) ;;
  match read_csv filepath with
  | None =>
      print (ErrorNotFound filepath) ;;
      print PleaseEnsure ;;
      sys_exit None
  | Some df =>
      let df_delhi := filter (fun r => String.eqb (raw_City r) "Delhi") df in
      print (FoundRows (List.length df_delhi)) ;;
      df_delhi <- lift (index_by_date df_delhi) ;;
      let df_delhi := ffill pm25 set_pm25 df_delhi in
      let df_delhi := ffill no2 set_no2 df_delhi in
      let df_delhi := dropna df_delhi in
      df_delhi <- lift (apply_status get_policy_status df_delhi) ;;
      print PreparationComplete ;;
      ret df_delhi
  end.

(** The function returns [None] in Python; the value returned here is
    the state of the frame object [df] when the call ends. *)
Definition perform_statistical_analysis (df : list LRow) (phase : string)
    : Prog (list LRow) :=
  print (AnalysisHeader phase) ;;
  let during_data := select_pm25 (during_label phase) df in
  let control_data := select_pm25 (control_label phase) df in
  if empty during_data || empty control_data then
    print NotEnoughData ;;
    ret df
  else
    emit (MannWhitneyU during_data control_data) ;;
    let '(stat, p_value) := mannwhitneyu during_data control_data in
    print (Comparing phase) ;;
    print (MeanDuring (mean during_data)) ;;
    print (MeanControl (mean control_data)) ;;
    print (PValue p_value) ;;
    (if Qltb p_value alpha then print ResultSignificant
     else print ResultNotSignificant) ;;
    ret df.

(** As above, the value returned is the state of [df] at the end. *)
Definition create_visualizations (df : list LRow) (phase : string)
    : Prog (list LRow) :=
  print GeneratingVisualizations ;;
  let comp_df :=
    filter (fun r => String.eqb (policy_status r) (during_label phase)
                     || String.eqb (policy_status r) (control_label phase)) df in
  let comp := map (fun r => (period_of (policy_status r), pm25 (base r))) comp_df in
  let mean_data := groupby_mean comp in
  control_pm25 <- lift (iloc0 (loc_period "Control (Prior Year)" mean_data)) ;;
  during_pm25 <- lift (iloc0 (loc_period "During Policy" mean_data)) ;;
  let pct_change :=
    fmul (fdiv (fsub during_pm25 control_pm25) control_pm25) (Some 100%Q) in
  emit (Shown (BarChart mean_data pct_change)) ;;
  emit (Shown (ViolinPlot comp)) ;;
  control_year <- lift (iloc0 (map year_of (select_index (control_label phase) df))) ;;
  during_year <- lift (iloc0 (map year_of (select_index (during_label phase) df))) ;;
  emit (Shown (CalendarHeatmaps control_year during_year)) ;;
  ret df.

(** The main block, with the default path of [load_and_prepare_real_data]. *)
Definition main : Prog unit :=
  processed_df <- load_and_prepare_real_data "data/city_day.csv" ;;
  processed_df <- perform_statistical_analysis processed_df "Phase 1" ;;
  processed_df <- create_visualizations processed_df "Phase 1" ;;
  ret tt.

End Script.

(* ====================================================================== *)
(** ** The windows and the cleaning rule as the design states them *)
(* ====================================================================== *)

(** These definitions follow the wording of the design document; the
    theorems below compare them with the functions above. *)

Inductive kind : Type :=
| During
| Before
| Control.

Definition label_of (k : kind) (phase : string) : string :=
  match k with
  | During => during_label phase
  | Before => before_label phase
  | Control => control_label phase
  end.

(** The window of kind [k] of a phase running from [s] to [e]:
    During is [[s, e]], Before is [[s - D - 1 day, s)] with [D = e - s],
    Control is [[s - 1 year, e - 1 year]]. *)
Definition in_window (k : kind) (s e d : Timestamp) : Prop :=
  match k with
  | During => (s <= d <= e)%Z
  | Before => (s - (e - s) - 1 <= d < s)%Z
  | Control => (sub_years 1 s <= d <= sub_years 1 e)%Z
  end.

(** Both dates of a dictionary entry, when they can be read. *)
Definition bounds (p : period) : option (Timestamp * Timestamp) :=
  match to_datetime (start p), to_datetime (end_ p) with
  | Some s, Some e => Some (s, e)
  | _, _ => None
  end.

Definition readable (entry : string * period) : Prop :=
  bounds (snd entry) <> None.

(** Some window of the entry contains the date. *)
Definition claims (entry : string * period) (d : Timestamp) : Prop :=
  exists s e k, bounds (snd entry) = Some (s, e) /\ in_window k s e d.

(** The window of kind [k] of the phase called [phase] in [periods]
    contains the date. *)
Definition matches (periods : list (string * period)) (phase : string)
    (k : kind) (d : Timestamp) : Prop :=
  exists dates s e,
    In (phase, dates) periods /\ bounds dates = Some (s, e) /\ in_window k s e d.

(** The cleaning steps with the values carried into the frame from above:
    [clean] is [clean_from None None]. *)
Definition clean_from (lp ln : float) (df : list Row) : list Row :=
  dropna (ffill_from no2 set_no2 ln (ffill_from pm25 set_pm25 lp df)).

(** The last value observed in a column, starting from a carried value. *)
Definition last_observed (get : Row -> float) (last : float) (df : list Row) : float :=
  fold_left (fun acc r => fill acc (get r)) df last.

(** No tracked pollutant field is missing. *)
Definition tracked_present (r : Row) : bool := notna (pm25 r) && notna (no2 r).

(** No column besides the tracked ones is missing. *)
Definition others_complete (r : Row) : bool := forallb notna (others r).

(** The frame after both forward fills, before [dropna]. *)
Definition filled (df : list Row) : list Row :=
  ffill no2 set_no2 (ffill pm25 set_pm25 df).

Local Close Scope string_scope.

(** The windows of a dictionary as closed intervals of days, in the order
    in which [get_policy_status_in] tests them (on days, the half-open
    Before window ends the day before the start). *)
Fixpoint windows_of (periods : list (string * period))
    : list (string * kind * (Timestamp * Timestamp)) :=
  match periods with
  | [] => []
  | (phase, dates) :: rest =>
      match bounds dates with
      | Some (s, e) =>
          [ (phase, During, (s, e));
            (phase, Before, (s - (e - s) - 1, s - 1));
            (phase, Control, (sub_years 1 s, sub_years 1 e)) ]
      | None => []
      end ++ windows_of rest
  end.

Definition inside (w : string * kind * (Timestamp * Timestamp)) (d : Timestamp) : Prop :=
  fst (snd w) <= d <= snd (snd w).

(** The label of the first window of a table that contains the date. *)
Fixpoint first_hit (table : list (string * kind * (Timestamp * Timestamp)))
    (d : Timestamp) : string :=
  match table with
  | [] => "Normal Day"%string
  | (phase, k, (lo, hi)) :: rest =>
      if (lo <=? d) && (d <=? hi) then label_of k phase else first_hit rest d
  end.

(** A dictionary whose two phases overlap, used in the examples. *)
Definition overlapping_periods : list (string * period) :=
  [ ("A"%string, mkPeriod "2016-01-01" "2016-01-15");
    ("B"%string, mkPeriod "2016-01-10" "2016-01-20") ].

(** The row a forward fill leaves, given the values carried to it. *)
Definition fill_row (lp ln : float) (r : Row) : Row :=
  mkRow (Date r) (City r) (fill lp (pm25 r)) (fill ln (no2 r)) (others r).

(** Two rows with both pollutants observed, used in the examples; the
    second has an empty cell in another column. *)
Definition sample_complete_row : Row :=
  mkRow 16801 "Delhi" (Some (80 # 1)) (Some (40 # 1)) [Some (Num (7 # 1))].

Definition sample_untracked_gap_row : Row :=
  mkRow 16802 "Delhi" (Some (90 # 1)) (Some (41 # 1)) [None].

(** A frame whose first [no2] value comes one row after the first
    [pm25] value. *)
Definition sample_late_no2 : list Row :=
  [ mkRow 16801 "Delhi" None None [];
    mkRow 16802 "Delhi" (Some (80 # 1)) None [];
    mkRow 16803 "Delhi" None (Some (40 # 1)) [] ].

(** A labelled frame with one During and one Control day of Phase 1, and
    a test that always answers with the p-value 0.01. *)
Definition sample_halved : list LRow :=
  [ mkLRow (mkRow 16436 "Delhi" (Some (100 # 1)) (Some (40 # 1)) []) "Control Phase 1";
    mkLRow (mkRow 16700 "Delhi" (Some (70 # 1)) (Some (40 # 1)) []) "Normal Day";
    mkLRow (mkRow 16801 "Delhi" (Some (50 # 1)) (Some (30 # 1)) []) "During Phase 1" ].

Definition sample_test (x y : list float) : Q * Q := (0, 1 # 100)%Q.

(** A frame with no Control day of Phase 1. *)
Definition sample_no_control : list LRow :=
  [ mkLRow (mkRow 16801 "Delhi" (Some (50 # 1)) (Some (30 # 1)) []) "During Phase 1" ].

(** A data source with no file at any path. *)
Definition no_file (filepath : string) : option (list RawRow) := None.

(** The rows of a file that belong to Delhi (line 27). *)
Definition delhi_rows (df : list RawRow) : list RawRow :=
  filter (fun r => String.eqb (raw_City r) "Delhi") df.

(** A file with a row of another city whose date cannot be read, and one
    Delhi row. *)
Definition sample_file (filepath : string) : option (list RawRow) :=
  Some [ mkRawRow "Mumbai" "not a date" (Some (10 # 1)) (Some (5 # 1)) [];
         mkRawRow "Delhi" "2016-01-05" (Some (50 # 1)) (Some (30 # 1)) [] ].

(** A dictionary whose second entry has no date where its start should
    be. *)
Definition malformed_periods : list (string * period) :=
  [ ("A"%string, mkPeriod "2016-01-01" "2016-01-15");
    ("B"%string, mkPeriod "not a date" "2016-01-20") ].

(** An event that prints one of the three outcomes of the comparison. *)
Definition is_verdict_line (e : event) : bool :=
  match e with
  | Printed NotEnoughData => true
  | Printed ResultSignificant => true
  | Printed ResultNotSignificant => true
  | _ => false
  end.

(** The window tests of [get_policy_status] as a boolean. *)
Definition in_windowb (k : kind) (s e d : Timestamp) : bool :=
  match k with
  | During => (s <=? d) && (d <=? e)
  | Before => (s - (e - s) - 1 <=? d) && (d <? s)
  | Control => (sub_years 1 s <=? d) && (d <=? sub_years 1 e)
  end.

(** A frame with the two samples of Phase 1 at equal means, and one with
    a Control mean of zero. *)
Definition sample_equal : list LRow :=
  [ mkLRow (mkRow 16436 "Delhi" (Some (80 # 1)) (Some (40 # 1)) []) "Control Phase 1";
    mkLRow (mkRow 16801 "Delhi" (Some (80 # 1)) (Some (30 # 1)) []) "During Phase 1" ].

(** A phase name that contains the word the grouping of line 110 looks
    for, and a frame with a During and a Control row under that name. *)
Definition sample_during_name : string := "During the ban".

Definition sample_during_frame : list LRow :=
  [ mkLRow (mkRow 16436 "Delhi" (Some (100 # 1)) (Some (40 # 1)) [])
           "Control During the ban";
    mkLRow (mkRow 16801 "Delhi" (Some (50 # 1)) (Some (30 # 1)) [])
           "During During the ban" ].

(** Two rows in the order of the file, the later date first; the second
    row misses its [pm25] value. *)
Definition sample_unsorted : list Row :=
  [ mkRow 16803 "Delhi" (Some (80 # 1)) (Some (40 # 1)) [];
    mkRow 16801 "Delhi" None (Some (41 # 1)) [] ].

(** The columns of a row, the index apart. *)
Definition columns (r : Row) : string * float * float * list (option cell) :=
  (City r, pm25 r, no2 r, others r).

Definition columns_complete (c : string * float * float * list (option cell)) : bool :=
  let '(_, p, n, o) := c in notna p && notna n && forallb notna o.

(* ====================================================================== *)
(** * Properties *)
(* ====================================================================== *)

(** ** Calendar arithmetic *)

Example epoch_is_1970 : days_from_civil 1970 1 1 = 0.
Proof. reflexivity. Qed.

Example parse_phase1_start : to_datetime "2016-01-01" = Some 16801.
Proof. reflexivity. Qed.

Example civil_of_16801 : civil_from_days 16801 = (2016, 1, 1).
Proof. reflexivity. Qed.

Example civil_of_leap_day : civil_from_days (days_from_civil 2016 2 29) = (2016, 2, 29).
Proof. reflexivity. Qed.

Example civil_of_year_end : civil_from_days (days_from_civil 2016 12 31) = (2016, 12, 31).
Proof. reflexivity. Qed.

Example leap_day_back : sub_years 1 (days_from_civil 2016 2 29) = days_from_civil 2015 2 28.
Proof. reflexivity. Qed.

Lemma days_before_year_succ (y : Z) :
  days_before_year (y + 1) = days_before_year y + 365 + (if is_leap y then 1 else 0).
Proof.
  unfold days_before_year, is_leap.
  replace (y + 1 - 1) with y by lia.
  destruct (Z.eqb_spec (y mod 4) 0), (Z.eqb_spec (y mod 100) 0), (Z.eqb_spec (y mod 400) 0);
    cbn [andb orb negb]; Z.div_mod_to_equations; lia.
Qed.


Lemma days_before_year_next (y : Z) :
  days_before_year (y + 1) = days_before_year y + year_length y.
Proof.
  rewrite days_before_year_succ. unfold year_length. destruct (is_leap y); lia.
Qed.

Lemma year_length_bounds (y : Z) : 365 <= year_length y <= 366.
Proof. unfold year_length. destruct (is_leap y); lia. Qed.

Lemma days_before_year_mono (a b : Z) :
  a <= b -> days_before_year a + 365 * (b - a) <= days_before_year b.
Proof.
  intros Hab.
  replace b with (a + Z.of_nat (Z.to_nat (b - a))) by lia.
  induction (Z.to_nat (b - a)) as [|k IH].
  - replace (a + Z.of_nat 0) with a by lia. lia.
  - replace (a + Z.of_nat (S k)) with (a + Z.of_nat k + 1) by lia.
    rewrite days_before_year_next.
    pose proof (year_length_bounds (a + Z.of_nat k)). lia.
Qed.

Lemma year_of_ordinal_spec (n : Z) :
  days_before_year (year_of_ordinal n) < n <= days_before_year (year_of_ordinal n + 1).
Proof.
  unfold year_of_ordinal.
  set (y := 400 * n / 146097 + 1).
  pose proof (days_before_year_succ (y - 1)) as H1.
  pose proof (days_before_year_succ y) as H2.
  pose proof (days_before_year_succ (y + 1)) as H3.
  replace (y - 1 + 1) with y in H1 by lia.
  replace (y + 1 + 1) with (y + 2) in H3 by lia.
  assert (Hy : days_before_year y - 1 < n <= days_before_year (y + 1) + 1).
  { unfold days_before_year, y.
    replace (400 * n / 146097 + 1 - 1) with (400 * n / 146097) by lia.
    replace (400 * n / 146097 + 1 + 1 - 1) with (400 * n / 146097 + 1) by lia.
    Z.div_mod_to_equations; lia. }
  destruct (Z.leb_spec n (days_before_year y)).
  - replace (y - 1 + 1) with y by lia.
    destruct (is_leap (y - 1)); lia.
  - destruct (Z.ltb_spec (days_before_year (y + 1)) n).
    + replace (y + 1 + 1) with (y + 2) by lia.
      destruct (is_leap (y + 1)); lia.
    + lia.
Qed.

(** The year of an ordinal is the only one whose days contain it. *)
Lemma year_of_ordinal_unique (n y : Z) :
  days_before_year y < n <= days_before_year (y + 1) -> year_of_ordinal n = y.
Proof.
  intros Hy.
  pose proof (year_of_ordinal_spec n) as Hs.
  set (y' := year_of_ordinal n) in *.
  destruct (Z.lt_trichotomy y' y) as [Hlt | [Heq | Hgt]]; [|exact Heq|].
  - pose proof (days_before_year_mono (y' + 1) y). lia.
  - pose proof (days_before_year_mono (y + 1) y'). lia.
Qed.

Ltac split_ltb :=
  repeat match goal with
    | |- context [if ?a <? ?b then _ else _] => destruct (Z.ltb_spec a b)
    end.

Lemma valid_date_spec (y m d : Z) :
  valid_date y m d = true <-> 1 <= m <= 12 /\ 1 <= d <= days_in_month y m.
Proof.
  unfold valid_date. rewrite !andb_true_iff, !Z.leb_le. lia.
Qed.

Lemma month_cases (m : Z) :
  1 <= m <= 12 ->
  m = 1 \/ m = 2 \/ m = 3 \/ m = 4 \/ m = 5 \/ m = 6 \/
  m = 7 \/ m = 8 \/ m = 9 \/ m = 10 \/ m = 11 \/ m = 12.
Proof. lia. Qed.

Ltac each_month H :=
  apply month_cases in H;
  repeat (destruct H as [H | H]; [subst | ]); [ .. | subst].

Ltac month_consts :=
  change (1 + 1) with 2; change (2 + 1) with 3; change (3 + 1) with 4;
  change (4 + 1) with 5; change (5 + 1) with 6; change (6 + 1) with 7;
  change (7 + 1) with 8; change (8 + 1) with 9; change (9 + 1) with 10;
  change (10 + 1) with 11; change (11 + 1) with 12.

Ltac month_tables :=
  unfold scan_months, days_in_month, days_before_month; month_consts;
  cbn [fst snd Z.eqb Pos.eqb orb andb Z.ltb Z.compare Pos.compare Pos.compare_cont].

(** The walk over the months ends on a valid day of the year. *)
Lemma scan_months_spec (y days : Z) :
  0 <= days < year_length y ->
  1 <= fst (scan_months y 1 days 11) <= 12 /\
  1 <= snd (scan_months y 1 days 11)
    <= days_in_month y (fst (scan_months y 1 days 11)) /\
  days_before_month y (fst (scan_months y 1 days 11))
    + snd (scan_months y 1 days 11) = days + 1.
Proof.
  unfold year_length.
  destruct (is_leap y) eqn:L; month_tables; rewrite ?L; month_tables;
    intros Hd; split_ltb; month_tables; rewrite ?L; month_tables; lia.
Qed.

(** On a valid date the walk finds the month and the day back. *)
Lemma scan_months_unique (y m d : Z) :
  valid_date y m d = true ->
  scan_months y 1 (days_before_month y m + d - 1) 11 = (m, d).
Proof.
  rewrite valid_date_spec. intros [Hm Hd].
  each_month Hm; revert Hd; month_tables;
    destruct (is_leap y); month_tables;
    intros Hd; split_ltb; try lia; f_equal; lia.
Qed.

(** Every day is a valid calendar date, and [days_from_civil] takes the
    date back to the day. *)
Lemma civil_from_days_valid (t y m d : Z) :
  civil_from_days t = (y, m, d) ->
  valid_date y m d = true /\ days_from_civil y m d = t.
Proof.
  unfold civil_from_days.
  pose proof (year_of_ordinal_spec (t + epoch)) as Hy.
  set (y0 := year_of_ordinal (t + epoch)) in *.
  rewrite days_before_year_next in Hy.
  pose proof (scan_months_spec y0 (t + epoch - days_before_year y0 - 1)) as Hs.
  destruct (scan_months y0 1 (t + epoch - days_before_year y0 - 1) 11) as [m0 d0].
  cbn [fst snd] in Hs.
  intros E. injection E as <- <- <-.
  destruct Hs as (Hm & Hd & Hsum); [lia|].
  split.
  - apply valid_date_spec. lia.
  - unfold days_from_civil. lia.
Qed.

Lemma day_of_year_bounds (y m d : Z) :
  valid_date y m d = true ->
  1 <= days_before_month y m + d <= year_length y.
Proof.
  rewrite valid_date_spec. intros [Hm Hd]. unfold year_length.
  each_month Hm; revert Hd; month_tables;
    destruct (is_leap y); month_tables; lia.
Qed.

(** A valid date is the date of its day. *)
Lemma civil_from_days_of_civil (y m d : Z) :
  valid_date y m d = true ->
  civil_from_days (days_from_civil y m d) = (y, m, d).
Proof.
  intros Hv.
  pose proof (day_of_year_bounds y m d Hv) as Hb.
  unfold civil_from_days, days_from_civil.
  replace (days_before_year y + days_before_month y m + d - epoch + epoch)
    with (days_before_year y + days_before_month y m + d) by lia.
  rewrite (year_of_ordinal_unique _ y)
    by (rewrite days_before_year_next; lia).
  replace (days_before_year y + days_before_month y m + d - days_before_year y - 1)
    with (days_before_month y m + d - 1) by lia.
  rewrite (scan_months_unique y m d Hv). reflexivity.
Qed.

Lemma days_in_month_bounds (y m : Z) : 28 <= days_in_month y m <= 31.
Proof.
  unfold days_in_month.
  destruct (m =? 2); [destruct (is_leap y); lia|].
  destruct ((m =? 4) || (m =? 6) || (m =? 9) || (m =? 11)); lia.
Qed.

(** The date [n] years before a day: the year goes down by [n], the month
    stays, the day stays unless the month is shorter there. *)
Lemma sub_years_civil (n t y m d : Z) :
  civil_from_days t = (y, m, d) ->
  civil_from_days (sub_years n t)
  = (y - n, m, Z.min d (days_in_month (y - n) m)).
Proof.
  intros E. unfold sub_years. rewrite E.
  apply civil_from_days_valid in E. destruct E as [Hv _].
  apply civil_from_days_of_civil.
  apply valid_date_spec in Hv. apply valid_date_spec.
  pose proof (days_in_month_bounds (y - n) m). lia.
Qed.

Lemma leap_not_twice (y : Z) : is_leap y = true -> is_leap (y - 1) = false.
Proof.
  unfold is_leap.
  destruct (Z.eqb_spec (y mod 4) 0), (Z.eqb_spec (y mod 100) 0), (Z.eqb_spec (y mod 400) 0),
           (Z.eqb_spec ((y - 1) mod 4) 0), (Z.eqb_spec ((y - 1) mod 100) 0),
           (Z.eqb_spec ((y - 1) mod 400) 0);
    cbn [andb orb negb]; intros H; try reflexivity; try discriminate;
    exfalso; Z.div_mod_to_equations; lia.
Qed.

(** One year back: same month, same day, 29 February going to 28. *)
Lemma sub_one_year_civil (t y m d : Z) :
  civil_from_days t = (y, m, d) ->
  civil_from_days (sub_years 1 t)
  = (y - 1, m, if (m =? 2) && (d =? 29) then 28 else d).
Proof.
  intros E. rewrite (sub_years_civil 1 t y m d E). f_equal.
  apply civil_from_days_valid in E. destruct E as [Hv _].
  apply valid_date_spec in Hv. destruct Hv as [Hm Hd].
  revert Hd. unfold days_in_month.
  destruct (Z.eqb_spec m 2) as [->|Hm2]; cbn [andb].
  - destruct (is_leap y) eqn:L.
    + rewrite (leap_not_twice y L). destruct (Z.eqb_spec d 29); lia.
    + destruct (is_leap (y - 1)); destruct (Z.eqb_spec d 29); lia.
  - destruct ((m =? 4) || (m =? 6) || (m =? 9) || (m =? 11)); lia.
Qed.


Lemma month_start_mono (y m m' : Z) :
  1 <= m -> m < m' -> m' <= 12 ->
  days_before_month y m + days_in_month y m <= days_before_month y m'.
Proof.
  intros H1 H2 H3.
  assert (Hm : 1 <= m <= 12) by lia.
  assert (Hm' : 1 <= m' <= 12) by lia.
  clear H1 H3. revert H2.
  each_month Hm; each_month Hm'; month_tables;
    destruct (is_leap y); month_tables; lia.
Qed.

(** Later dates have later days. *)
Lemma days_from_civil_lt (y m d y' m' d' : Z) :
  valid_date y m d = true -> valid_date y' m' d' = true ->
  civil_lt (y, m, d) (y', m', d') ->
  days_from_civil y m d < days_from_civil y' m' d'.
Proof.
  intros Hv Hv' Hlt.
  pose proof (day_of_year_bounds _ _ _ Hv) as Hb.
  pose proof (day_of_year_bounds _ _ _ Hv') as Hb'.
  apply valid_date_spec in Hv. apply valid_date_spec in Hv'.
  unfold days_from_civil. cbn in Hlt.
  destruct Hlt as [Hy | [-> [Hm | [-> Hd]]]].
  - pose proof (days_before_year_mono (y + 1) y') as Hmono.
    rewrite days_before_year_next in Hmono. lia.
  - pose proof (month_start_mono y' m m'). lia.
  - lia.
Qed.

(** [pd.DateOffset(years=n)] keeps the order of days. *)
Lemma sub_years_monotone (n s e : Z) :
  s <= e -> sub_years n s <= sub_years n e.
Proof.
  intros Hse. unfold sub_years.
  destruct (civil_from_days s) as [[y m] d] eqn:Es.
  destruct (civil_from_days e) as [[y' m'] d'] eqn:Ee.
  apply civil_from_days_valid in Es. destruct Es as [Hv Hs].
  apply civil_from_days_valid in Ee. destruct Ee as [Hv' He].
  assert (Hle : ~ civil_lt (y', m', d') (y, m, d)).
  { intros Hlt. pose proof (days_from_civil_lt _ _ _ _ _ _ Hv' Hv Hlt). lia. }
  cbn in Hle.
  pose proof (days_in_month_bounds (y - n) m) as Hb.
  pose proof (days_in_month_bounds (y' - n) m') as Hb'.
  assert (Hw : valid_date (y - n) m (Z.min d (days_in_month (y - n) m)) = true).
  { apply valid_date_spec in Hv. apply valid_date_spec. lia. }
  assert (Hw' : valid_date (y' - n) m' (Z.min d' (days_in_month (y' - n) m')) = true).
  { apply valid_date_spec in Hv'. apply valid_date_spec. lia. }
  destruct (Z.eq_dec y y') as [<-|Hy].
  - destruct (Z.eq_dec m m') as [<-|Hm].
    + assert (d <= d') by lia.
      unfold days_from_civil. lia.
    + apply Z.lt_le_incl. apply days_from_civil_lt; [exact Hw | exact Hw' |].
      cbn. lia.
  - apply Z.lt_le_incl. apply days_from_civil_lt; [exact Hw | exact Hw' |].
    cbn. lia.
Qed.

(** The day one year back is 365 or 366 days earlier. *)
Lemma sub_one_year_distance (t : Z) :
  t - 366 <= sub_years 1 t <= t - 365.
Proof.
  unfold sub_years.
  destruct (civil_from_days t) as [[y m] d] eqn:E.
  pose proof (sub_one_year_civil t y m d E) as Hc.
  pose proof (sub_years_civil 1 t y m d E) as Hc'.
  rewrite Hc in Hc'. injection Hc' as Hmin.
  rewrite <- Hmin.
  apply civil_from_days_valid in E. destruct E as [Hv Ht].
  apply valid_date_spec in Hv. destruct Hv as [Hm Hd].
  subst t. unfold days_from_civil.
  pose proof (days_before_year_succ (y - 1)) as Hy.
  replace (y - 1 + 1) with y in Hy by lia.
  revert Hd Hy.
  each_month Hm; month_tables;
    destruct (is_leap y) eqn:L; month_tables;
    try rewrite (leap_not_twice y L);
    destruct (is_leap (y - 1)); month_tables;
    intros Hd Hy; try (destruct (Z.eqb_spec d 29)); lia.
Qed.

(** ** Labels *)

Local Open Scope string_scope.

Lemma label_of_inj (k k' : kind) (p p' : string) :
  label_of k p = label_of k' p' -> k = k' /\ p = p'.
Proof.
  destruct k, k'; cbn; intros H; try discriminate;
    injection H as ->; split; reflexivity.
Qed.

Lemma label_not_normal (k : kind) (p : string) : label_of k p <> "Normal Day".
Proof. destruct k; cbn; discriminate. Qed.

Local Close Scope string_scope.

(** ** One turn of the loop of [get_policy_status] *)

Lemma in_window_dec (k : kind) (s e d : Z) :
  {in_window k s e d} + {~ in_window k s e d}.
Proof.
  destruct k; cbn;
    match goal with
    | |- {?a <= ?b <= ?c} + {_} =>
        destruct (Z_le_dec a b); [destruct (Z_le_dec b c)|]; (left; lia) || (right; lia)
    | |- {?a <= ?b < ?c} + {_} =>
        destruct (Z_le_dec a b); [destruct (Z_lt_dec b c)|]; (left; lia) || (right; lia)
    end.
Qed.

(** The turn for a readable entry, with the three tests in their order. *)
Lemma status_step (phase : string) (dates : period)
    (rest : list (string * period)) (s e d : Z) :
  bounds dates = Some (s, e) ->
  get_policy_status_in ((phase, dates) :: rest) d
  = if (s <=? d) && (d <=? e) then Ok (during_label phase)
    else if (s - (e - s) - 1 <=? d) && (d <? s) then Ok (before_label phase)
    else if (sub_years 1 s <=? d) && (d <=? sub_years 1 e) then Ok (control_label phase)
    else get_policy_status_in rest d.
Proof.
  unfold bounds. cbn [get_policy_status_in].
  destruct (to_datetime (start dates)) as [s0|]; [|discriminate].
  destruct (to_datetime (end_ dates)) as [e0|]; [|discriminate].
  intros H. injection H as -> ->. reflexivity.
Qed.

Lemma status_step_during phase dates rest s e d :
  bounds dates = Some (s, e) -> in_window During s e d ->
  get_policy_status_in ((phase, dates) :: rest) d = Ok (during_label phase).
Proof.
  intros Hb Hw. rewrite (status_step _ _ _ _ _ _ Hb). cbn in Hw.
  destruct (Z.leb_spec s d), (Z.leb_spec d e); cbn [andb]; try lia. reflexivity.
Qed.

Lemma status_step_before phase dates rest s e d :
  bounds dates = Some (s, e) -> in_window Before s e d ->
  get_policy_status_in ((phase, dates) :: rest) d = Ok (before_label phase).
Proof.
  intros Hb Hw. rewrite (status_step _ _ _ _ _ _ Hb). cbn in Hw.
  destruct (Z.leb_spec s d); cbn [andb]; [lia|].
  destruct (Z.leb_spec (s - (e - s) - 1) d), (Z.ltb_spec d s); cbn [andb]; try lia.
  reflexivity.
Qed.

Lemma status_step_control phase dates rest s e d :
  bounds dates = Some (s, e) ->
  ~ in_window During s e d -> ~ in_window Before s e d -> in_window Control s e d ->
  get_policy_status_in ((phase, dates) :: rest) d = Ok (control_label phase).
Proof.
  intros Hb Hd Hbf Hw. rewrite (status_step _ _ _ _ _ _ Hb). cbn in Hd, Hbf, Hw.
  destruct (Z.leb_spec s d), (Z.leb_spec d e); cbn [andb]; try lia;
    destruct (Z.leb_spec (s - (e - s) - 1) d), (Z.ltb_spec d s); cbn [andb]; try lia;
    destruct (Z.leb_spec (sub_years 1 s) d), (Z.leb_spec d (sub_years 1 e));
    cbn [andb]; try lia; reflexivity.
Qed.

Lemma status_step_skip phase dates rest s e d :
  bounds dates = Some (s, e) ->
  ~ in_window During s e d -> ~ in_window Before s e d -> ~ in_window Control s e d ->
  get_policy_status_in ((phase, dates) :: rest) d = get_policy_status_in rest d.
Proof.
  intros Hb Hd Hbf Hw. rewrite (status_step _ _ _ _ _ _ Hb). cbn in Hd, Hbf, Hw.
  destruct (Z.leb_spec s d), (Z.leb_spec d e); cbn [andb]; try lia;
    destruct (Z.leb_spec (s - (e - s) - 1) d), (Z.ltb_spec d s); cbn [andb]; try lia;
    destruct (Z.leb_spec (sub_years 1 s) d), (Z.leb_spec d (sub_years 1 e));
    cbn [andb]; try lia; reflexivity.
Qed.

Lemma readable_bounds (entry : string * period) :
  readable entry -> exists s e, bounds (snd entry) = Some (s, e).
Proof.
  unfold readable. destruct (bounds (snd entry)) as [[s e]|]; [|congruence].
  intros _. exists s, e. reflexivity.
Qed.

(** Entries none of whose windows holds the date are passed over. *)
Lemma status_skip_prefix (pre rest : list (string * period)) (d : Z) :
  Forall readable pre -> Forall (fun q => ~ claims q d) pre ->
  get_policy_status_in (pre ++ rest) d = get_policy_status_in rest d.
Proof.
  induction pre as [|[phase dates] pre IH]; intros Hr Hc; [reflexivity|].
  inversion Hr as [|? ? Hr1 Hr2]; subst. inversion Hc as [|? ? Hc1 Hc2]; subst.
  destruct (readable_bounds _ Hr1) as (s & e & Hb). cbn [snd] in Hb.
  cbn [app]. rewrite (status_step_skip _ _ _ s e d Hb).
  - apply IH; assumption.
  - intros H. apply Hc1. exists s, e, During. split; assumption.
  - intros H. apply Hc1. exists s, e, Before. split; assumption.
  - intros H. apply Hc1. exists s, e, Control. split; assumption.
Qed.

(** With readable dates the loop always ends with a label. *)
Lemma status_total (periods : list (string * period)) (d : Z) :
  Forall readable periods -> exists label, get_policy_status_in periods d = Ok label.
Proof.
  induction periods as [|[phase dates] rest IH]; intros Hr.
  - eexists. reflexivity.
  - inversion Hr as [|? ? Hr1 Hr2]; subst.
    destruct (readable_bounds _ Hr1) as (s & e & Hb). cbn [snd] in Hb.
    rewrite (status_step _ _ _ _ _ _ Hb).
    destruct ((s <=? d) && (d <=? e)); [eexists; reflexivity|].
    destruct ((s - (e - s) - 1 <=? d) && (d <? s)); [eexists; reflexivity|].
    destruct ((sub_years 1 s <=? d) && (d <=? sub_years 1 e)); [eexists; reflexivity|].
    apply IH. exact Hr2.
Qed.

(** A label names a phase of the dictionary, unless it is the default. *)
Lemma status_label_source (periods : list (string * period)) (d : Z) (l : string) :
  get_policy_status_in periods d = Ok l ->
  l = "Normal Day"%string \/
  exists phase k, In phase (map fst periods) /\ l = label_of k phase.
Proof.
  induction periods as [|[phase dates] rest IH]; cbn [get_policy_status_in].
  - intros H. injection H as <-. left. reflexivity.
  - destruct (to_datetime (start dates)) as [s|]; [|discriminate].
    destruct (to_datetime (end_ dates)) as [e|]; [|discriminate].
    cbn zeta.
    destruct ((s <=? d) && (d <=? e)).
    { intros H. injection H as <-. right. exists phase, During. split; [left|]; reflexivity. }
    destruct ((sub_days 1 (s - (e - s)) <=? d) && (d <? s)).
    { intros H. injection H as <-. right. exists phase, Before. split; [left|]; reflexivity. }
    destruct ((sub_years 1 s <=? d) && (d <=? sub_years 1 e)).
    { intros H. injection H as <-. right. exists phase, Control. split; [left|]; reflexivity. }
    intros H. destruct (IH H) as [->|(p & k & Hin & ->)]; [left; reflexivity|].
    right. exists p, k. split; [right; exact Hin | reflexivity].
Qed.

(** Later entries of a dictionary cannot give the label of an earlier
    key: keys are unique. *)
Lemma status_rest_other_name phase (rest : list (string * period)) (d : Z) (k : kind) :
  ~ In phase (map fst rest) ->
  get_policy_status_in rest d <> Ok (label_of k phase).
Proof.
  intros Hn H. apply status_label_source in H.
  destruct H as [H | (p & k' & Hin & H)].
  - exact (label_not_normal _ _ H).
  - apply label_of_inj in H. destruct H as [_ ->]. exact (Hn Hin).
Qed.

(** ** The loop as a table of windows *)

Lemma status_table (periods : list (string * period)) (d : Z) :
  Forall readable periods ->
  get_policy_status_in periods d = Ok (first_hit (windows_of periods) d).
Proof.
  induction periods as [|[phase dates] rest IH]; intros Hr; [reflexivity|].
  inversion Hr as [|? ? Hr1 Hr2]; subst.
  destruct (readable_bounds _ Hr1) as (s & e & Hb). cbn [snd] in Hb.
  rewrite (status_step _ _ _ _ _ _ Hb).
  cbn [windows_of]. rewrite Hb. cbn [app first_hit label_of].
  replace (d <=? s - 1) with (d <? s)
    by (destruct (Z.ltb_spec d s), (Z.leb_spec d (s - 1)); lia || reflexivity).
  destruct ((s <=? d) && (d <=? e)); [reflexivity|].
  destruct ((s - (e - s) - 1 <=? d) && (d <? s)); [reflexivity|].
  destruct ((sub_years 1 s <=? d) && (d <=? sub_years 1 e)); [reflexivity|].
  apply IH. exact Hr2.
Qed.

Lemma matches_table (periods : list (string * period)) (phase : string)
    (k : kind) (d : Z) :
  matches periods phase k d <->
  exists lo hi, In (phase, k, (lo, hi)) (windows_of periods) /\ lo <= d <= hi.
Proof.
  unfold matches. induction periods as [|[p dates] rest IH].
  - split.
    + intros (? & ? & ? & [] & _).
    + intros (? & ? & [] & _).
  - cbn [windows_of In]. split.
    + intros (dt & s & e & [Heq | Hin] & Hb & Hw).
      * injection Heq as -> ->. rewrite Hb.
        destruct k; cbn in Hw.
        -- exists s, e. split; [left; reflexivity | lia].
        -- exists (s - (e - s) - 1), (s - 1). split; [right; left; reflexivity | lia].
        -- exists (sub_years 1 s), (sub_years 1 e).
           split; [right; right; left; reflexivity | lia].
      * destruct IH as [IH _].
        destruct IH as (lo & hi & Hin' & Hd); [exists dt, s, e; auto|].
        exists lo, hi. split; [apply in_or_app; right; exact Hin' | exact Hd].
    + intros (lo & hi & Hin & Hd). apply in_app_or in Hin.
      destruct Hin as [Hin | Hin].
      * destruct (bounds dates) as [[s e]|] eqn:Hb; [|destruct Hin].
        cbn [In] in Hin.
        destruct Hin as [H | [H | [H | []]]]; injection H as <- <- <- <-;
          exists dates, s, e; (split; [left; reflexivity|]); (split; [exact Hb|]);
          cbn; lia.
      * destruct IH as [_ IH].
        destruct IH as (dt & s & e & Hin' & Hb & Hw); [exists lo, hi; auto|].
        exists dt, s, e. split; [right; exact Hin' | auto].
Qed.

(** ** The four phases of the script *)

Lemma policy_periods_readable : Forall readable policy_periods.
Proof. repeat constructor; unfold readable; vm_compute; discriminate. Qed.

Lemma policy_periods_names : NoDup (map fst policy_periods).
Proof.
  cbn. repeat constructor; cbn [In]; intros H;
    repeat (destruct H as [H | H]; [discriminate|]); exact H.
Qed.

(** The twelve windows, in days since 1970-01-01:
    Phase 1: 2016-01-01..01-15, before 2015-12-17..12-31, control 2015-01-01..01-15;
    Phase 2: 2016-04-15..04-30, before 2016-03-30..04-14, control 2015-04-15..04-30;
    Phase 3: 2017-11-13..11-17, before 2017-11-08..11-12, control 2016-11-13..11-17;
    Phase 4: 2019-11-04..11-15, before 2019-10-23..11-03, control 2018-11-04..11-15. *)
Lemma policy_windows :
  windows_of policy_periods
  = [ ("Phase 1"%string, During, (16801, 16815));
      ("Phase 1"%string, Before, (16786, 16800));
      ("Phase 1"%string, Control, (16436, 16450));
      ("Phase 2"%string, During, (16906, 16921));
      ("Phase 2"%string, Before, (16890, 16905));
      ("Phase 2"%string, Control, (16540, 16555));
      ("Phase 3"%string, During, (17483, 17487));
      ("Phase 3"%string, Before, (17478, 17482));
      ("Phase 3"%string, Control, (17118, 17122));
      ("Phase 4"%string, During, (18204, 18215));
      ("Phase 4"%string, Before, (18192, 18203));
      ("Phase 4"%string, Control, (17839, 17850)) ].
Proof. vm_compute. reflexivity. Qed.

Lemma policy_windows_dates :
  map (fun w => (civil_from_days (fst (snd w)), civil_from_days (snd (snd w))))
      (windows_of policy_periods)
  = [ ((2016, 1, 1), (2016, 1, 15)); ((2015, 12, 17), (2015, 12, 31));
      ((2015, 1, 1), (2015, 1, 15));
      ((2016, 4, 15), (2016, 4, 30)); ((2016, 3, 30), (2016, 4, 14));
      ((2015, 4, 15), (2015, 4, 30));
      ((2017, 11, 13), (2017, 11, 17)); ((2017, 11, 8), (2017, 11, 12));
      ((2016, 11, 13), (2016, 11, 17));
      ((2019, 11, 4), (2019, 11, 15)); ((2019, 10, 23), (2019, 11, 3));
      ((2018, 11, 4), (2018, 11, 15)) ].
Proof. vm_compute. reflexivity. Qed.

Lemma get_policy_status_table (d : Z) :
  get_policy_status d = Ok (first_hit (windows_of policy_periods) d).
Proof. apply status_table. exact policy_periods_readable. Qed.

Lemma window_test_true (lo hi d : Z) :
  lo <= d <= hi -> (lo <=? d) && (d <=? hi) = true.
Proof. intros H. apply andb_true_iff. rewrite !Z.leb_le. exact H. Qed.

Lemma window_test_false (lo hi d : Z) :
  d < lo \/ hi < d -> (lo <=? d) && (d <=? hi) = false.
Proof.
  intros H. apply andb_false_iff. rewrite !Z.leb_gt. lia.
Qed.

(** Decide the tests of a table one after the other. *)
Ltac decide_window_tests :=
  repeat match goal with
    | |- context [(?lo <=? ?d) && (?d <=? ?hi)] =>
        first [ rewrite (window_test_true lo hi d) by lia
              | rewrite (window_test_false lo hi d) by lia ]
    end.

Ltac table_cases H :=
  rewrite policy_windows in H; cbn [In] in H;
  repeat (destruct H as [H | H]; [injection H as <- <- <- <- | ]);
  [ .. | destruct H ].

(** In the script's configuration a date inside a window gets the label
    of that window, whichever it is. *)
Lemma policy_window_label (d : Z) (phase : string) (k : kind) (lo hi : Z) :
  In (phase, k, (lo, hi)) (windows_of policy_periods) -> lo <= d <= hi ->
  get_policy_status d = Ok (label_of k phase).
Proof.
  intros Hin Hd. rewrite get_policy_status_table, policy_windows.
  table_cases Hin; cbn [first_hit]; decide_window_tests; reflexivity.
Qed.

(** No two of the twelve windows share a day. *)
Lemma policy_windows_disjoint (d : Z) (phase phase' : string) (k k' : kind)
    (lo hi lo' hi' : Z) :
  In (phase, k, (lo, hi)) (windows_of policy_periods) ->
  In (phase', k', (lo', hi')) (windows_of policy_periods) ->
  lo <= d <= hi -> lo' <= d <= hi' ->
  phase = phase' /\ k = k'.
Proof.
  intros Hin Hin' Hd Hd'.
  table_cases Hin; table_cases Hin'; try lia; split; reflexivity.
Qed.

Lemma first_hit_source (table : list (string * kind * (Z * Z))) (d : Z) (l : string) :
  first_hit table d = l ->
  l = "Normal Day"%string \/
  exists phase k lo hi,
    In (phase, k, (lo, hi)) table /\ lo <= d <= hi /\ l = label_of k phase.
Proof.
  induction table as [|[[phase k] [lo hi]] rest IH]; cbn [first_hit].
  - intros <-. left. reflexivity.
  - destruct ((lo <=? d) && (d <=? hi)) eqn:T.
    + apply andb_true_iff in T. rewrite !Z.leb_le in T.
      intros <-. right. exists phase, k, lo, hi.
      split; [left; reflexivity | split; [exact T | reflexivity]].
    + intros H. destruct (IH H) as [Hl | (p & k' & lo' & hi' & Hin & Hd & Hl)].
      * left. exact Hl.
      * right. exists p, k', lo', hi'.
        split; [right; exact Hin | split; [exact Hd | exact Hl]].
Qed.

Lemma Ok_inj {A : Type} (a b : A) : Ok a = Ok b -> a = b.
Proof. intros H. inversion H. reflexivity. Qed.

Lemma unique_entry {A : Type} (l : list (string * A)) (p : string) (a b : A) :
  NoDup (map fst l) -> In (p, a) l -> In (p, b) l -> a = b.
Proof.
  induction l as [|[q c] l IH]; cbn [map fst In]; intros Hn Ha Hb; [destruct Ha|].
  inversion Hn as [|? ? Hq Hn']; subst.
  destruct Ha as [Ha | Ha], Hb as [Hb | Hb].
  - congruence.
  - injection Ha as -> ->. exfalso. apply Hq.
    apply in_map_iff. exists (p, b). split; [reflexivity | exact Hb].
  - injection Hb as -> ->. exfalso. apply Hq.
    apply in_map_iff. exists (p, a). split; [reflexivity | exact Ha].
  - apply IH; assumption.
Qed.

(** In the script's configuration the label of a date says in which
    window the date lies, and conversely. *)
Lemma policy_status_matches (d : Z) (phase : string) (k : kind) :
  get_policy_status d = Ok (label_of k phase) <-> matches policy_periods phase k d.
Proof.
  split.
  - rewrite get_policy_status_table. intros H. apply Ok_inj in H.
    apply first_hit_source in H.
    destruct H as [H | (p & k' & lo & hi & Hin & Hd & H)].
    + destruct (label_not_normal _ _ H).
    + apply label_of_inj in H. destruct H as [-> ->].
      apply matches_table. exists lo, hi. split; assumption.
  - intros H. apply matches_table in H. destruct H as (lo & hi & Hin & Hd).
    exact (policy_window_label d phase k lo hi Hin Hd).
Qed.

(** The window of a phase of the script, from its own two dates. *)
Lemma policy_matches_entry (d : Z) (phase : string) (dates : period) (s e : Z) (k : kind) :
  In (phase, dates) policy_periods -> bounds dates = Some (s, e) ->
  (matches policy_periods phase k d <-> in_window k s e d).
Proof.
  intros Hin Hb. split.
  - intros (dates' & s' & e' & Hin' & Hb' & Hw).
    rewrite (unique_entry _ _ _ _ policy_periods_names Hin' Hin) in Hb'.
    rewrite Hb in Hb'. injection Hb' as <- <-. exact Hw.
  - intros Hw. exists dates, s, e. split; [exact Hin | split; [exact Hb | exact Hw]].
Qed.

Lemma claims_matches (periods : list (string * period)) (d : Z) :
  (forall phase k, ~ matches periods phase k d) ->
  Forall (fun q => ~ claims q d) periods.
Proof.
  intros H. apply Forall_forall. intros [phase dates] Hin (s & e & k & Hb & Hw).
  apply (H phase k). exists dates, s, e. cbn [snd] in Hb.
  split; [exact Hin | split; [exact Hb | exact Hw]].
Qed.

Lemma status_normal (periods : list (string * period)) (d : Z) :
  Forall readable periods -> Forall (fun q => ~ claims q d) periods ->
  get_policy_status_in periods d = Ok "Normal Day"%string.
Proof.
  intros Hr Hc.
  rewrite <- (app_nil_r periods).
  rewrite (status_skip_prefix periods [] d Hr Hc). reflexivity.
Qed.

Lemma nodup_names_split {A : Type} (pre post : list (string * A)) (p : string) (a : A) :
  NoDup (map fst (pre ++ (p, a) :: post)) -> ~ In p (map fst post).
Proof.
  rewrite map_app. cbn [map fst]. intros Hn Hin.
  apply NoDup_remove_2 in Hn. apply Hn. apply in_or_app. right. exact Hin.
Qed.

(** The label of a phase is given exactly on its window, provided no
    earlier entry and no earlier test of the phase takes the date. *)
Lemma status_iff_window (pre post : list (string * period)) (phase : string)
    (dates : period) (s e d : Z) (k : kind) :
  NoDup (map fst (pre ++ (phase, dates) :: post)) ->
  Forall readable pre -> bounds dates = Some (s, e) ->
  Forall (fun q => ~ claims q d) pre ->
  (k = Control -> ~ in_window During s e d /\ ~ in_window Before s e d) ->
  (get_policy_status_in (pre ++ (phase, dates) :: post) d = Ok (label_of k phase)
   <-> in_window k s e d).
Proof.
  intros Hn Hr Hb Hc Hk.
  rewrite (status_skip_prefix pre _ d Hr Hc).
  pose proof (nodup_names_split _ _ _ _ Hn) as Hpost.
  assert (Hdb : in_window During s e d -> in_window Before s e d -> False)
    by (cbn; lia).
  destruct (in_window_dec During s e d) as [HD | HD].
  { rewrite (status_step_during _ _ _ _ _ _ Hb HD).
    destruct k; split; intros H; try exact HD; try reflexivity;
      try (apply Ok_inj in H; apply (label_of_inj During) in H; destruct H; discriminate).
    - exfalso. exact (Hdb HD H).
    - exfalso. destruct (Hk eq_refl) as [Hk1 _]. exact (Hk1 HD). }
  destruct (in_window_dec Before s e d) as [HB | HB].
  { rewrite (status_step_before _ _ _ _ _ _ Hb HB).
    destruct k; split; intros H; try exact HB; try reflexivity;
      try (apply Ok_inj in H; apply (label_of_inj Before) in H; destruct H; discriminate).
    - exfalso. exact (HD H).
    - exfalso. destruct (Hk eq_refl) as [_ Hk2]. exact (Hk2 HB). }
  destruct (in_window_dec Control s e d) as [HC | HC].
  { rewrite (status_step_control _ _ _ _ _ _ Hb HD HB HC).
    destruct k; split; intros H; try exact HC; try reflexivity;
      try (apply Ok_inj in H; apply (label_of_inj Control) in H; destruct H; discriminate).
    - exfalso. exact (HD H).
    - exfalso. exact (HB H). }
  rewrite (status_step_skip _ _ _ _ _ _ Hb HD HB HC).
  split; intros H.
  - destruct (status_rest_other_name phase post d k Hpost H).
  - destruct k; contradiction.
Qed.

(** ** The labelling claims *)

Lemma policy_entry_cases (phase : string) (dates : period) (s e : Z) :
  In (phase, dates) policy_periods -> bounds dates = Some (s, e) ->
  (phase = "Phase 1"%string /\ s = 16801 /\ e = 16815) \/
  (phase = "Phase 2"%string /\ s = 16906 /\ e = 16921) \/
  (phase = "Phase 3"%string /\ s = 17483 /\ e = 17487) \/
  (phase = "Phase 4"%string /\ s = 18204 /\ e = 18215).
Proof.
  intros Hin Hb. unfold policy_periods in Hin. cbn [In] in Hin.
  destruct Hin as [H | [H | [H | [H | []]]]]; injection H as <- <-;
    vm_compute in Hb; injection Hb as <- <-; tauto.
Qed.

(** C4.  The labelling function is total and deterministic, with
    first-match precedence: every date gets exactly one label (in the
    script's configuration, and in any dictionary whose dates can be read);
    the label is that of the earliest entry one of whose windows holds the
    date, During being tested before Before and Before before Control;
    it is "Normal Day" when no window holds the date.  Later entries
    whose windows also hold the date are not looked at and raise no error. *)
Theorem get_policy_status_first_match :
  (forall date, exists! label, get_policy_status date = Ok label) /\
  (forall (periods : list (string * period)) (date : Timestamp),
     Forall readable periods ->
     (exists! label, get_policy_status_in periods date = Ok label) /\
     (forall pre phase dates post s e,
        periods = pre ++ (phase, dates) :: post ->
        bounds dates = Some (s, e) ->
        Forall (fun q => ~ claims q date) pre ->
        (in_window During s e date ->
         get_policy_status_in periods date = Ok (during_label phase)) /\
        (in_window Before s e date ->
         get_policy_status_in periods date = Ok (before_label phase)) /\
        (~ in_window During s e date -> ~ in_window Before s e date ->
         in_window Control s e date ->
         get_policy_status_in periods date = Ok (control_label phase))) /\
     (Forall (fun q => ~ claims q date) periods ->
      get_policy_status_in periods date = Ok "Normal Day"%string)).
Proof.
  assert (Huniq : forall periods date, Forall readable periods ->
            exists! label, get_policy_status_in periods date = Ok label).
  { intros periods date Hr. destruct (status_total periods date Hr) as [l Hl].
    exists l. split; [exact Hl|]. intros l' Hl'. rewrite Hl in Hl'.
    exact (Ok_inj _ _ Hl'). }
  split.
  - intros date. apply Huniq. exact policy_periods_readable.
  - intros periods date Hr. split; [apply Huniq; exact Hr|]. split.
    + intros pre phase dates post s e -> Hb Hc.
      assert (Hpre : Forall readable pre).
      { apply Forall_app in Hr. tauto. }
      rewrite (status_skip_prefix pre _ date Hpre Hc).
      split; [|split].
      * apply status_step_during. exact Hb.
      * apply status_step_before. exact Hb.
      * apply status_step_control. exact Hb.
    + apply status_normal. exact Hr.
Qed.

Lemma overlapping_readable : Forall readable overlapping_periods.
Proof. repeat constructor; unfold readable; vm_compute; discriminate. Defined.

(** On 2016-01-12 both phases of [overlapping_periods] are running; the
    label is that of the first. *)
Lemma get_policy_status_first_match_witness :
  get_policy_status_in overlapping_periods 16812 = Ok "During A"%string /\
  claims ("B"%string, mkPeriod "2016-01-10" "2016-01-20") 16812.
Proof.
  split.
  - refine (proj1 (proj1 (proj2 (proj2 get_policy_status_first_match
                                   overlapping_periods 16812 overlapping_readable))
                           [] "A"%string (mkPeriod "2016-01-01" "2016-01-15") _
                           16801 16815 eq_refl eq_refl (Forall_nil _)) _).
    cbn. lia.
  - exists 16810, 16820, During. split; [reflexivity | cbn; lia].
Defined.

(** C10.  The twelve windows of the four phases of the script are
    pairwise disjoint: a date lies in at most one of them, it is labelled
    by that one, and by "Normal Day" when it lies in none; the order of
    the tests never settles a label. *)
Theorem policy_windows_pairwise_disjoint :
  List.length (windows_of policy_periods) = 12%nat /\
  (forall d phase k phase' k',
     matches policy_periods phase k d -> matches policy_periods phase' k' d ->
     phase = phase' /\ k = k') /\
  (forall d phase k,
     matches policy_periods phase k d ->
     get_policy_status d = Ok (label_of k phase)) /\
  (forall d,
     (forall phase k, ~ matches policy_periods phase k d) ->
     get_policy_status d = Ok "Normal Day"%string).
Proof.
  split; [rewrite policy_windows; reflexivity|]. split; [|split].
  - intros d phase k phase' k' H H'.
    apply matches_table in H. destruct H as (lo & hi & Hin & Hd).
    apply matches_table in H'. destruct H' as (lo' & hi' & Hin' & Hd').
    exact (policy_windows_disjoint d _ _ _ _ _ _ _ _ Hin Hin' Hd Hd').
  - intros d phase k H. apply policy_status_matches. exact H.
  - intros d H. apply status_normal; [exact policy_periods_readable|].
    apply claims_matches. exact H.
Qed.

(** 2016-04-20 lies in the During window of Phase 2 and in no other. *)
Lemma policy_windows_pairwise_disjoint_witness :
  get_policy_status 16911 = Ok "During Phase 2"%string.
Proof.
  refine (proj1 (proj2 (proj2 policy_windows_pairwise_disjoint))
            16911 "Phase 2"%string During _).
  exists (mkPeriod "2016-04-15" "2016-04-30"), 16906, 16921.
  split; [cbn; tauto|]. split; [reflexivity | cbn; lia].
Defined.

(** C5.  The Control window of a phase is its During window moved back by
    one calendar year: a date gets the Control label exactly when it lies
    between [start - 1 year] and [end - 1 year] (no earlier test taking
    it); in particular [end - 1 year] gets it; both hold without side
    condition for the four phases of the script.  The move is by the
    calendar (same month and day of the previous year, 29 February going
    to 28 February), not by 365 days: across a 29 February it is 366 days. *)
Theorem control_window_year_shift :
  (forall pre phase dates post s e d,
     NoDup (map fst (pre ++ (phase, dates) :: post)) ->
     Forall readable pre -> bounds dates = Some (s, e) ->
     Forall (fun q => ~ claims q d) pre ->
     ~ in_window During s e d -> ~ in_window Before s e d ->
     (get_policy_status_in (pre ++ (phase, dates) :: post) d = Ok (control_label phase)
      <-> sub_years 1 s <= d <= sub_years 1 e)) /\
  (forall pre phase dates post s e,
     Forall readable pre -> bounds dates = Some (s, e) -> s <= e ->
     Forall (fun q => ~ claims q (sub_years 1 e)) pre ->
     ~ in_window During s e (sub_years 1 e) ->
     ~ in_window Before s e (sub_years 1 e) ->
     get_policy_status_in (pre ++ (phase, dates) :: post) (sub_years 1 e)
     = Ok (control_label phase)) /\
  (forall phase dates s e,
     In (phase, dates) policy_periods -> bounds dates = Some (s, e) ->
     (forall d, get_policy_status d = Ok (control_label phase)
                <-> sub_years 1 s <= d <= sub_years 1 e) /\
     get_policy_status (sub_years 1 e) = Ok (control_label phase)) /\
  (forall t y m d,
     civil_from_days t = (y, m, d) ->
     civil_from_days (sub_years 1 t)
     = (y - 1, m, if (m =? 2) && (d =? 29) then 28 else d)) /\
  (forall t, t - 366 <= sub_years 1 t <= t - 365) /\
  sub_years 1 (days_from_civil 2016 4 15) = days_from_civil 2016 4 15 - 366 /\
  sub_years 1 (days_from_civil 2017 2 28) = days_from_civil 2017 2 28 - 366 /\
  sub_years 1 (days_from_civil 2017 3 1) = days_from_civil 2017 3 1 - 365.
Proof.
  split; [|split; [|split; [|split; [|split]]]].
  - intros pre phase dates post s e d Hn Hr Hb Hc HD HB.
    apply (status_iff_window pre post phase dates s e d Control Hn Hr Hb Hc).
    intros _. split; assumption.
  - intros pre phase dates post s e Hr Hb Hse Hc HD HB.
    rewrite (status_skip_prefix pre _ _ Hr Hc).
    apply (status_step_control _ _ _ _ _ _ Hb HD HB).
    cbn. pose proof (sub_years_monotone 1 s e Hse). lia.
  - intros phase dates s e Hin Hb.
    assert (Hiff : forall d, get_policy_status d = Ok (control_label phase)
                             <-> sub_years 1 s <= d <= sub_years 1 e).
    { intros d. change (control_label phase) with (label_of Control phase).
      rewrite policy_status_matches.
      exact (policy_matches_entry d phase dates s e Control Hin Hb). }
    split; [exact Hiff|]. apply Hiff.
    destruct (policy_entry_cases _ _ _ _ Hin Hb)
      as [(_ & -> & ->) | [(_ & -> & ->) | [(_ & -> & ->) | (_ & -> & ->)]]];
      (split; [apply sub_years_monotone; lia | lia]).
  - exact sub_one_year_civil.
  - exact sub_one_year_distance.
  - repeat split; vm_compute; reflexivity.
Qed.

(** Phase 2 of the script: its Control window is 2015-04-15..2015-04-30,
    on the far side of 29 February 2016; 2015-04-30 is day 16555. *)
Lemma control_window_year_shift_witness :
  get_policy_status 16555 = Ok "Control Phase 2"%string /\
  civil_from_days 16555 = (2015, 4, 30).
Proof.
  split; [|reflexivity].
  refine (proj2 (proj1 (proj2 (proj2 control_window_year_shift))
                   "Phase 2"%string (mkPeriod "2016-04-15" "2016-04-30")
                   16906 16921 _ eq_refl)).
  cbn. tauto.
Defined.

(** C6.  The Before window of a phase is the half-open interval
    [[start - D - 1 day, start)] with [D = end - start]: a date gets the
    Before label exactly there (no earlier entry taking it), so
    [start - 1 day] is labelled Before and [start] itself During; both
    hold without side condition for the four phases of the script. *)
Theorem before_window_half_open :
  (forall pre phase dates post s e d,
     NoDup (map fst (pre ++ (phase, dates) :: post)) ->
     Forall readable pre -> bounds dates = Some (s, e) ->
     Forall (fun q => ~ claims q d) pre ->
     (get_policy_status_in (pre ++ (phase, dates) :: post) d = Ok (before_label phase)
      <-> s - (e - s) - 1 <= d < s)) /\
  (forall pre phase dates post s e,
     Forall readable pre -> bounds dates = Some (s, e) -> s <= e ->
     Forall (fun q => ~ claims q (s - 1)) pre ->
     Forall (fun q => ~ claims q s) pre ->
     get_policy_status_in (pre ++ (phase, dates) :: post) (s - 1)
     = Ok (before_label phase) /\
     get_policy_status_in (pre ++ (phase, dates) :: post) s
     = Ok (during_label phase)) /\
  (forall phase dates s e,
     In (phase, dates) policy_periods -> bounds dates = Some (s, e) ->
     (forall d, get_policy_status d = Ok (before_label phase)
                <-> s - (e - s) - 1 <= d < s) /\
     get_policy_status (s - 1) = Ok (before_label phase) /\
     get_policy_status s = Ok (during_label phase)).
Proof.
  split; [|split].
  - intros pre phase dates post s e d Hn Hr Hb Hc.
    apply (status_iff_window pre post phase dates s e d Before Hn Hr Hb Hc).
    discriminate.
  - intros pre phase dates post s e Hr Hb Hse Hc1 Hc2. split.
    + rewrite (status_skip_prefix pre _ _ Hr Hc1).
      apply (status_step_before _ _ _ _ _ _ Hb). cbn. lia.
    + rewrite (status_skip_prefix pre _ _ Hr Hc2).
      apply (status_step_during _ _ _ _ _ _ Hb). cbn. lia.
  - intros phase dates s e Hin Hb.
    assert (Hiff : forall k d, get_policy_status d = Ok (label_of k phase)
                               <-> in_window k s e d).
    { intros k d. rewrite policy_status_matches.
      exact (policy_matches_entry d phase dates s e k Hin Hb). }
    assert (Hse : s <= e).
    { destruct (policy_entry_cases _ _ _ _ Hin Hb)
        as [(_ & -> & ->) | [(_ & -> & ->) | [(_ & -> & ->) | (_ & -> & ->)]]]; lia. }
    split; [exact (Hiff Before)|]. split.
    + apply (Hiff Before). cbn. lia.
    + apply (Hiff During). cbn. lia.
Qed.

(** Phase 3 of the script starts on 2017-11-13, day 17483. *)
Lemma before_window_half_open_witness :
  get_policy_status (17483 - 1) = Ok "Before Phase 3"%string /\
  get_policy_status 17483 = Ok "During Phase 3"%string.
Proof.
  refine (proj2 (proj2 (proj2 before_window_half_open)
                   "Phase 3"%string (mkPeriod "2017-11-13" "2017-11-17")
                   17483 17487 _ eq_refl)).
  cbn. tauto.
Defined.

(** ** Forward fill and [dropna] *)

Lemma clean_is_clean_from (df : list Row) : clean df = clean_from None None df.
Proof. reflexivity. Qed.

Lemma row_complete_split (r : Row) :
  row_complete r = tracked_present r && others_complete r.
Proof. reflexivity. Qed.

(** The two fills and the filter, in one pass over the rows. *)
Lemma clean_from_cons (lp ln : float) (r : Row) (rest : list Row) :
  clean_from lp ln (r :: rest)
  = (if row_complete (fill_row lp ln r) then [fill_row lp ln r] else [])
    ++ clean_from (fill lp (pm25 r)) (fill ln (no2 r)) rest.
Proof.
  unfold clean_from, dropna. cbn [ffill_from filter].
  change (set_no2 (fill ln (no2 (set_pm25 (fill lp (pm25 r)) r)))
                  (set_pm25 (fill lp (pm25 r)) r))
    with (fill_row lp ln r).
  destruct (row_complete (fill_row lp ln r)); reflexivity.
Qed.

Lemma clean_from_nil (lp ln : float) : clean_from lp ln [] = [].
Proof. reflexivity. Qed.

Lemma last_observed_app (get : Row -> float) (last : float) (a b : list Row) :
  last_observed get last (a ++ b) = last_observed get (last_observed get last a) b.
Proof. unfold last_observed. apply fold_left_app. Qed.

Lemma last_observed_cons (get : Row -> float) (last : float) (r : Row) (l : list Row) :
  last_observed get last (r :: l) = last_observed get (fill last (get r)) l.
Proof. reflexivity. Qed.

(** The carried value is the most recent observation, if there is one. *)
Lemma last_observed_spec (get : Row -> float) (l : list Row) (v : Q) :
  last_observed get None l = Some v <->
  exists l1 r l2, l = l1 ++ r :: l2 /\ get r = Some v /\
                  Forall (fun r' => get r' = None) l2.
Proof.
  induction l as [|r l IH] using rev_ind.
  - split; [discriminate|]. intros (l1 & r & l2 & H & _). destruct l1; discriminate.
  - rewrite last_observed_app. cbn [last_observed fold_left].
    destruct (get r) as [x|] eqn:Hr; cbn [fill].
    + split.
      * intros H. injection H as ->. exists l, r, []. auto.
      * intros (l1 & r' & l2 & H & Hv & Hn).
        destruct l2 as [|z l2 _] using rev_ind.
        -- apply app_inj_tail in H. destruct H as [_ <-]. congruence.
        -- rewrite app_comm_cons, app_assoc in H. apply app_inj_tail in H.
           destruct H as [_ <-]. apply Forall_app in Hn. destruct Hn as [_ Hn].
           inversion Hn; subst. congruence.
    + fold (last_observed get None l). rewrite IH. split.
      * intros (l1 & r' & l2 & -> & Hv & Hn). exists l1, r', (l2 ++ [r]).
        split; [rewrite <- app_assoc; reflexivity|]. split; [exact Hv|].
        apply Forall_app. split; [exact Hn | constructor; [exact Hr | constructor]].
      * intros (l1 & r' & l2 & H & Hv & Hn).
        destruct l2 as [|z l2 _] using rev_ind.
        -- apply app_inj_tail in H. destruct H as [_ <-]. congruence.
        -- rewrite app_comm_cons, app_assoc in H. apply app_inj_tail in H.
           destruct H as [-> <-]. apply Forall_app in Hn. destruct Hn as [Hn _].
           exists l1, r', l2. auto.
Qed.

(** What the two fills leave at a position: the row with, in each
    pollutant column, the last value observed down to that row. *)
Lemma filled_from_app (lp ln : float) (pre post : list Row) :
  ffill_from no2 set_no2 ln (ffill_from pm25 set_pm25 lp (pre ++ post))
  = ffill_from no2 set_no2 ln (ffill_from pm25 set_pm25 lp pre)
    ++ ffill_from no2 set_no2 (last_observed no2 ln pre)
         (ffill_from pm25 set_pm25 (last_observed pm25 lp pre) post).
Proof.
  revert lp ln. induction pre as [|r pre IH]; intros lp ln; [reflexivity|].
  cbn [app ffill_from]. rewrite IH. reflexivity.
Qed.

Lemma filled_at (pre post : list Row) (r : Row) :
  filled (pre ++ r :: post)
  = filled pre
    ++ fill_row (last_observed pm25 None pre) (last_observed no2 None pre) r
    :: ffill_from no2 set_no2 (last_observed no2 None (pre ++ [r]))
         (ffill_from pm25 set_pm25 (last_observed pm25 None (pre ++ [r])) post).
Proof.
  unfold filled, ffill. rewrite filled_from_app. f_equal.
  cbn [ffill_from]. rewrite !last_observed_app. reflexivity.
Qed.

Lemma clean_from_app (lp ln : float) (pre post : list Row) :
  clean_from lp ln (pre ++ post)
  = clean_from lp ln pre
    ++ clean_from (last_observed pm25 lp pre) (last_observed no2 ln pre) post.
Proof.
  unfold clean_from, dropna. rewrite filled_from_app. apply filter_app.
Qed.

(** Rows above the first observation of a pollutant do not survive. *)
Lemma clean_from_gap_pm25 (ln : float) (gap : list Row) :
  Forall (fun r => pm25 r = None) gap ->
  clean_from None ln gap = [] /\ last_observed pm25 None gap = None.
Proof.
  revert ln. induction gap as [|r gap IH]; intros ln Hg; [split; reflexivity|].
  inversion Hg as [|? ? Hr Hg']; subst.
  rewrite clean_from_cons, last_observed_cons, Hr. cbn [fill].
  destruct (IH (fill ln (no2 r)) Hg') as [-> ->].
  unfold row_complete, fill_row. cbn. rewrite Hr. split; reflexivity.
Qed.

Lemma clean_from_gap_no2 (lp : float) (gap : list Row) :
  Forall (fun r => no2 r = None) gap ->
  clean_from lp None gap = [] /\ last_observed no2 None gap = None.
Proof.
  revert lp. induction gap as [|r gap IH]; intros lp Hg; [split; reflexivity|].
  inversion Hg as [|? ? Hr Hg']; subst.
  rewrite clean_from_cons, last_observed_cons, Hr. cbn [fill].
  destruct (IH (fill lp (pm25 r)) Hg') as [-> ->].
  unfold row_complete, fill_row. cbn. rewrite Hr.
  destruct (fill lp (pm25 r)); split; reflexivity.
Qed.

(** Once both pollutants have been observed, only a missing value in
    another column can cost a row. *)
Lemma clean_from_observed (a b : Q) (df : list Row) :
  clean_from (Some a) (Some b) df
  = filter others_complete
      (ffill_from no2 set_no2 (Some b) (ffill_from pm25 set_pm25 (Some a) df)).
Proof.
  revert a b. induction df as [|r df IH]; intros a b; [reflexivity|].
  rewrite clean_from_cons. cbn [ffill_from filter].
  assert (Hp : exists a', fill (Some a) (pm25 r) = Some a')
    by (destruct (pm25 r); eexists; reflexivity).
  assert (Hn : exists b', fill (Some b) (no2 r) = Some b')
    by (destruct (no2 r); eexists; reflexivity).
  destruct Hp as [a' Hp], Hn as [b' Hn].
  unfold row_complete, fill_row, set_no2, set_pm25, others_complete.
  cbn [pm25 no2 others Date City]. rewrite Hp, Hn, IH. cbn [notna isna negb andb].
  destruct (forallb notna (others r)); reflexivity.
Qed.

Lemma ffill_from_length get set last (df : list Row) :
  List.length (ffill_from get set last df) = List.length df.
Proof.
  revert last. induction df as [|r df IH]; intros last; [reflexivity|].
  cbn [ffill_from List.length]. rewrite IH. reflexivity.
Qed.

Lemma ffill_from_others_complete (lp ln : float) (df : list Row) :
  Forall (fun r => others_complete r = true) df ->
  Forall (fun r => others_complete r = true)
    (ffill_from no2 set_no2 ln (ffill_from pm25 set_pm25 lp df)).
Proof.
  revert lp ln. induction df as [|r df IH]; intros lp ln H; [constructor|].
  inversion H; subst. cbn [ffill_from]. constructor; [assumption | apply IH; assumption].
Qed.

Lemma filter_all {A : Type} (f : A -> bool) (l : list A) :
  Forall (fun x => f x = true) l -> filter f l = l.
Proof.
  induction 1 as [|x l Hx _ IH]; [reflexivity|].
  cbn [filter]. rewrite Hx, IH. reflexivity.
Qed.

(** ** The cleaning steps inside [load_and_prepare_real_data] *)

Lemma apply_status_total (df : list Row) :
  exists labelled,
    apply_status get_policy_status df = Ok labelled /\ map base labelled = df.
Proof.
  induction df as [|r df (l & Hl & Hm)].
  - exists []. split; reflexivity.
  - cbn [apply_status]. rewrite get_policy_status_table, Hl.
    eexists. split; [reflexivity|]. cbn [map base]. rewrite Hm. reflexivity.
Qed.

(** With a file that can be read and dates that can be parsed, the call
    returns the cleaned rows, each with a label. *)
Lemma load_returns_clean (read_csv : string -> option (list RawRow))
    (filepath : string) (df : list RawRow) (rows : list Row) :
  read_csv filepath = Some df ->
  index_by_date (filter (fun r => String.eqb (raw_City r) "Delhi") df) = Ok rows ->
  exists labelled,
    outcome (load_and_prepare_real_data read_csv filepath) = Ok labelled /\
    map base labelled = clean rows.
Proof.
  intros Hf Hi. unfold load_and_prepare_real_data. rewrite Hf.
  destruct (apply_status_total (clean rows)) as (l & Hl & Hm).
  exists l. split; [|exact Hm].
  unfold clean in Hl. unfold outcome, bind, print, emit, lift, ret.
  cbn [fst snd]. rewrite Hi. cbn. rewrite Hl. reflexivity.
Qed.

Lemma tracked_rule_when_others_complete (l : list Row) :
  Forall (fun r => others_complete r = true) l ->
  filter row_complete l = filter tracked_present l.
Proof.
  induction 1 as [|r l Hr _ IH]; [reflexivity|].
  cbn [filter]. rewrite row_complete_split, Hr, andb_true_r, IH. reflexivity.
Qed.

Lemma clean_from_both_observed (a b : Q) (df : list Row) :
  Forall (fun r => others_complete r = true) df ->
  clean_from (Some a) (Some b) df
  = ffill_from no2 set_no2 (Some b) (ffill_from pm25 set_pm25 (Some a) df).
Proof.
  intros H. rewrite clean_from_observed. apply filter_all.
  apply ffill_from_others_complete. exact H.
Qed.

Lemma clean_from_keep (lp ln : float) (r : Row) (rest : list Row) (v w : Q) :
  fill lp (pm25 r) = Some v -> fill ln (no2 r) = Some w ->
  others_complete r = true ->
  clean_from lp ln (r :: rest)
  = mkRow (Date r) (City r) (Some v) (Some w) (others r)
    :: clean_from (Some v) (Some w) rest.
Proof.
  intros Hv Hw Ho. rewrite clean_from_cons.
  unfold row_complete, fill_row. cbn [pm25 no2 others].
  unfold others_complete in Ho. rewrite Hv, Hw, Ho. reflexivity.
Qed.

Lemma clean_from_drop (lp ln : float) (r : Row) (rest : list Row) :
  fill lp (pm25 r) = None \/ fill ln (no2 r) = None ->
  clean_from lp ln (r :: rest)
  = clean_from (fill lp (pm25 r)) (fill ln (no2 r)) rest.
Proof.
  intros H. rewrite clean_from_cons.
  unfold row_complete, fill_row. cbn [pm25 no2 others].
  destruct H as [-> | ->]; [reflexivity|].
  destruct (fill lp (pm25 r)); reflexivity.
Qed.

Lemma clean_gap (gap rest : list Row) :
  Forall (fun r => pm25 r = None) gap \/ Forall (fun r => no2 r = None) gap ->
  clean (gap ++ rest)
  = clean_from (last_observed pm25 None gap) (last_observed no2 None gap) rest.
Proof.
  intros [Hg | Hg]; rewrite clean_is_clean_from, clean_from_app.
  - destruct (clean_from_gap_pm25 None gap Hg) as [-> _]. reflexivity.
  - destruct (clean_from_gap_no2 None gap Hg) as [-> _]. reflexivity.
Qed.

(** C1, for the tracked fields.  The statement is about frames in which
    only [pm25] and [no2] have missing values.  After each of the two is
    filled with the most recent earlier observation, the rows discarded
    are exactly those that still miss a tracked value.  Rows above the
    first observation of a pollutant are dropped.  The row of that first
    observation is kept with its own value, and every row below it is
    kept, when its other pollutant is observed or filled by then; it is
    dropped when the other pollutant has not been observed yet.  No row
    after the first observation of both pollutants is dropped. *)
Theorem prepare_drops_leading_tracked_gaps (df : list Row) :
  Forall (fun r => others_complete r = true) df ->
  clean df = filter tracked_present (filled df) /\
  (forall pre r post,
     df = pre ++ r :: post ->
     filled df
     = filled pre
       ++ fill_row (last_observed pm25 None pre) (last_observed no2 None pre) r
       :: ffill_from no2 set_no2 (last_observed no2 None (pre ++ [r]))
            (ffill_from pm25 set_pm25 (last_observed pm25 None (pre ++ [r])) post)) /\
  (forall get l v,
     last_observed get None l = Some v <->
     exists l1 r l2, l = l1 ++ r :: l2 /\ get r = Some v /\
                     Forall (fun r' => get r' = None) l2) /\
  (forall gap rest,
     df = gap ++ rest ->
     Forall (fun r => pm25 r = None) gap \/ Forall (fun r => no2 r = None) gap ->
     clean df
     = clean_from (last_observed pm25 None gap) (last_observed no2 None gap) rest) /\
  (forall gap r rest v,
     df = gap ++ r :: rest ->
     Forall (fun r => pm25 r = None) gap -> pm25 r = Some v ->
     (forall w,
        fill (last_observed no2 None gap) (no2 r) = Some w ->
        clean df
        = mkRow (Date r) (City r) (Some v) (Some w) (others r)
          :: ffill_from no2 set_no2 (Some w) (ffill_from pm25 set_pm25 (Some v) rest)) /\
     (fill (last_observed no2 None gap) (no2 r) = None ->
      clean df = clean_from (Some v) None rest)) /\
  (forall gap r rest w,
     df = gap ++ r :: rest ->
     Forall (fun r => no2 r = None) gap -> no2 r = Some w ->
     (forall v,
        fill (last_observed pm25 None gap) (pm25 r) = Some v ->
        clean df
        = mkRow (Date r) (City r) (Some v) (Some w) (others r)
          :: ffill_from no2 set_no2 (Some w) (ffill_from pm25 set_pm25 (Some v) rest)) /\
     (fill (last_observed pm25 None gap) (pm25 r) = None ->
      clean df = clean_from None (Some w) rest)) /\
  (forall pre post a b,
     df = pre ++ post ->
     last_observed pm25 None pre = Some a ->
     last_observed no2 None pre = Some b ->
     clean df
     = clean pre
       ++ ffill_from no2 set_no2 (Some b) (ffill_from pm25 set_pm25 (Some a) post)) /\
  (forall read_csv filepath raw,
     read_csv filepath = Some raw ->
     index_by_date (filter (fun r => String.eqb (raw_City r) "Delhi") raw) = Ok df ->
     exists labelled,
       outcome (load_and_prepare_real_data read_csv filepath) = Ok labelled /\
       map base labelled = clean df).
Proof.
  intros Ho.
  split; [|split; [|split; [|split; [|split; [|split; [|split]]]]]].
  - change (clean df) with (filter row_complete (filled df)).
    apply tracked_rule_when_others_complete.
    apply ffill_from_others_complete. exact Ho.
  - intros pre r post ->. apply filled_at.
  - exact last_observed_spec.
  - intros gap rest -> Hg. apply clean_gap. exact Hg.
  - intros gap r rest v -> Hg Hv.
    apply Forall_app in Ho. destruct Ho as [_ Ho].
    inversion Ho as [|? ? Hr Hrest]; subst.
    rewrite (clean_gap gap _ (or_introl Hg)).
    destruct (clean_from_gap_pm25 None gap Hg) as [_ ->]. split.
    + intros w Hw.
      rewrite (clean_from_keep None _ r rest v w); [|rewrite Hv; reflexivity|exact Hw|exact Hr].
      rewrite (clean_from_both_observed v w rest Hrest). reflexivity.
    + intros Hn. rewrite clean_from_drop by (right; exact Hn).
      rewrite Hv, Hn. reflexivity.
  - intros gap r rest w -> Hg Hw.
    apply Forall_app in Ho. destruct Ho as [_ Ho].
    inversion Ho as [|? ? Hr Hrest]; subst.
    rewrite (clean_gap gap _ (or_intror Hg)).
    destruct (clean_from_gap_no2 None gap Hg) as [_ ->]. split.
    + intros v Hv.
      rewrite (clean_from_keep _ None r rest v w); [|exact Hv|rewrite Hw; reflexivity|exact Hr].
      rewrite (clean_from_both_observed v w rest Hrest). reflexivity.
    + intros Hn. rewrite clean_from_drop by (left; exact Hn).
      rewrite Hw, Hn. reflexivity.
  - intros pre post a b -> Ha Hb.
    apply Forall_app in Ho. destruct Ho as [_ Ho].
    rewrite clean_is_clean_from, clean_from_app, Ha, Hb.
    rewrite (clean_from_both_observed a b post Ho). reflexivity.
  - intros read_csv filepath raw Hf Hi.
    exact (load_returns_clean read_csv filepath raw df Hf Hi).
Qed.

(** A leading gap of two rows in [pm25]; the third row carries the first
    observation and is kept with it, and so is the row below. *)
Lemma prepare_drops_leading_tracked_gaps_witness :
  clean [ mkRow 16801 "Delhi" None (Some (40 # 1)) [];
          mkRow 16802 "Delhi" None None [];
          mkRow 16803 "Delhi" (Some (80 # 1)) None [];
          mkRow 16804 "Delhi" None (Some (41 # 1)) [] ]
  = [ mkRow 16803 "Delhi" (Some (80 # 1)) (Some (40 # 1)) [];
      mkRow 16804 "Delhi" (Some (80 # 1)) (Some (41 # 1)) [] ].
Proof.
  refine (proj1 (proj1 (proj2 (proj2 (proj2 (proj2
            (prepare_drops_leading_tracked_gaps
               [ mkRow 16801 "Delhi" None (Some (40 # 1)) [];
                 mkRow 16802 "Delhi" None None [];
                 mkRow 16803 "Delhi" (Some (80 # 1)) None [];
                 mkRow 16804 "Delhi" None (Some (41 # 1)) [] ] _)))))
            [ mkRow 16801 "Delhi" None (Some (40 # 1)) [];
              mkRow 16802 "Delhi" None None [] ]
            (mkRow 16803 "Delhi" (Some (80 # 1)) None [])
            [ mkRow 16804 "Delhi" None (Some (41 # 1)) [] ]
            (80 # 1)%Q eq_refl _ eq_refl) (40 # 1)%Q eq_refl).
  - repeat constructor.
  - repeat constructor.
Defined.

(** C1 as the specification words it fails on the code: the first row
    with an observed [pm25] value is not always kept.  In
    [sample_late_no2], which has no column besides the tracked ones, the
    row of the first [pm25] observation (2016-01-02) is dropped, because
    [no2] has not been observed by then. *)
Lemma first_observed_row_dropped_counterexample :
  ~ (forall gap r rest v,
       Forall (fun r => pm25 r = None) gap -> pm25 r = Some v ->
       exists r' tail,
         clean (gap ++ r :: rest) = r' :: tail /\
         Date r' = Date r /\ pm25 r' = Some v) /\
  map pm25 sample_late_no2 = [None; Some (80 # 1); None] /\
  map others sample_late_no2 = [[]; []; []] /\
  clean sample_late_no2 = [ mkRow 16803 "Delhi" (Some (80 # 1)) (Some (40 # 1)) [] ].
Proof.
  split; [|split; [|split]]; try reflexivity.
  intros H.
  destruct (H [mkRow 16801 "Delhi" None None []]
              (mkRow 16802 "Delhi" (Some (80 # 1)) None [])
              [mkRow 16803 "Delhi" None (Some (40 # 1)) []]
              (80 # 1)%Q)
    as (r' & tail & E & Hd & _).
  - repeat constructor.
  - reflexivity.
  - vm_compute in E. injection E as <- _. discriminate Hd.
Qed.

(** ** The comparison *)

Lemma Qltb_lt (x y : Q) : Qltb x y = true <-> (x < y)%Q.
Proof.
  unfold Qltb. rewrite Qlt_alt. destruct (x ?= y)%Q; split; congruence.
Qed.

Lemma Qltb_ge (x y : Q) : Qltb x y = false <-> (y <= x)%Q.
Proof.
  split.
  - intros H. apply Qnot_lt_le. intros Hlt. apply Qltb_lt in Hlt. congruence.
  - intros H. destruct (Qltb x y) eqn:E; [|reflexivity].
    apply Qltb_lt in E. apply Qle_not_lt in H. contradiction.
Qed.

Lemma mean_some_nonempty (col : list float) (m : Q) :
  mean col = Some m -> empty col = false.
Proof. destruct col; [discriminate | reflexivity]. Qed.

Lemma empty_false {A : Type} (l : list A) : l <> [] -> empty l = false.
Proof. destruct l; [congruence | reflexivity]. Qed.

(** The mean of a column without NaN is the sum over the count. *)
Lemma mean_of_values (xs : list Q) :
  xs <> [] ->
  mean (map Some xs) = Some (Qsum xs / inject_Z (Z.of_nat (List.length xs)))%Q.
Proof.
  intros Hx. unfold mean.
  assert (E : observed (map Some xs) = xs).
  { clear Hx. induction xs as [|x xs IH]; [reflexivity|]. cbn. rewrite IH. reflexivity. }
  rewrite E. destruct xs; [congruence | reflexivity].
Qed.

Section Comparison.

Variable mannwhitneyu : list float -> list float -> Q * Q.

(** The call when a sample is empty: the header, the message, return. *)
Lemma analysis_when_empty (df : list LRow) (phase : string) :
  empty (select_pm25 (during_label phase) df)
  || empty (select_pm25 (control_label phase) df) = true ->
  perform_statistical_analysis mannwhitneyu df phase
  = ([Printed (AnalysisHeader phase); Printed NotEnoughData], Ok df).
Proof.
  intros H. unfold perform_statistical_analysis. rewrite H. reflexivity.
Qed.

(** The call when both samples have rows. *)
Lemma analysis_when_tested (df : list LRow) (phase : string) :
  empty (select_pm25 (during_label phase) df)
  || empty (select_pm25 (control_label phase) df) = false ->
  perform_statistical_analysis mannwhitneyu df phase
  = ([ Printed (AnalysisHeader phase);
       MannWhitneyU (select_pm25 (during_label phase) df)
                    (select_pm25 (control_label phase) df);
       Printed (Comparing phase);
       Printed (MeanDuring (mean (select_pm25 (during_label phase) df)));
       Printed (MeanControl (mean (select_pm25 (control_label phase) df)));
       Printed (PValue (snd (mannwhitneyu (select_pm25 (during_label phase) df)
                                        (select_pm25 (control_label phase) df))));
       Printed (if Qltb (snd (mannwhitneyu (select_pm25 (during_label phase) df)
                                         (select_pm25 (control_label phase) df)))
                      alpha
              then ResultSignificant else ResultNotSignificant) ],
     Ok df).
Proof.
  intros H. unfold perform_statistical_analysis. rewrite H.
  destruct (mannwhitneyu _ _) as [stat p]. cbn [snd].
  destruct (Qltb p alpha); reflexivity.
Qed.

(** In every case the call returns, and the frame is as it was. *)
Lemma analysis_returns_frame (df : list LRow) (phase : string) :
  outcome (perform_statistical_analysis mannwhitneyu df phase) = Ok df.
Proof.
  destruct (empty (select_pm25 (during_label phase) df)
            || empty (select_pm25 (control_label phase) df)) eqn:E.
  - rewrite (analysis_when_empty df phase E). reflexivity.
  - rewrite (analysis_when_tested df phase E). reflexivity.
Qed.

End Comparison.

Lemma bind_after_ok {A B : Type} (m : Prog A) (a : A) (k : A -> Prog B) :
  outcome m = Ok a ->
  bind m k = (trace m ++ trace (k a), outcome (k a)).
Proof.
  destruct m as [tr r]. cbn [outcome trace fst snd]. intros ->.
  cbn [bind]. destruct (k a). reflexivity.
Qed.

Lemma trace_bind {A B : Type} (m : Prog A) (k : A -> Prog B) :
  trace (bind m k)
  = trace m ++ match outcome m with
               | Ok a => trace (k a)
               | _ => []
               end.
Proof.
  destruct m as [tr [a | e | c]]; cbn [bind trace outcome fst snd].
  - destruct (k a). reflexivity.
  - rewrite app_nil_r. reflexivity.
  - rewrite app_nil_r. reflexivity.
Qed.

(** The visualisation step starts by announcing itself. *)
Lemma visualizations_start (df : list LRow) (phase : string) :
  exists after,
    trace (create_visualizations df phase) = Printed GeneratingVisualizations :: after.
Proof.
  unfold create_visualizations. rewrite trace_bind.
  cbn [print emit trace outcome fst snd app]. eexists. reflexivity.
Qed.

(** C8.  With rows in both samples the test is called once on them, and
    its p-value decides: below 0.05 the reduction is reported as
    significant, at 0.05 or above as not significant; in both cases the
    mean of each sample is printed (for a sample of observed values, the
    sum over the count), and the call returns. *)
Theorem significance_decision_rule
    (mannwhitneyu : list float -> list float -> Q * Q)
    (df : list LRow) (phase : string) :
  select_pm25 (during_label phase) df <> [] ->
  select_pm25 (control_label phase) df <> [] ->
  ((snd (mannwhitneyu (select_pm25 (during_label phase) df)
                      (select_pm25 (control_label phase) df)) < alpha)%Q ->
   reported_verdict (trace (perform_statistical_analysis mannwhitneyu df phase))
   = Some SignificantReduction) /\
  ((alpha <= snd (mannwhitneyu (select_pm25 (during_label phase) df)
                               (select_pm25 (control_label phase) df)))%Q ->
   reported_verdict (trace (perform_statistical_analysis mannwhitneyu df phase))
   = Some NotSignificant) /\
  In (Printed (MeanDuring (mean (select_pm25 (during_label phase) df))))
     (trace (perform_statistical_analysis mannwhitneyu df phase)) /\
  In (Printed (MeanControl (mean (select_pm25 (control_label phase) df))))
     (trace (perform_statistical_analysis mannwhitneyu df phase)) /\
  filter is_test_call (trace (perform_statistical_analysis mannwhitneyu df phase))
  = [MannWhitneyU (select_pm25 (during_label phase) df)
                  (select_pm25 (control_label phase) df)] /\
  outcome (perform_statistical_analysis mannwhitneyu df phase) = Ok df /\
  (forall xs, xs <> [] ->
     mean (map Some xs) = Some (Qsum xs / inject_Z (Z.of_nat (List.length xs)))%Q).
Proof.
  intros Hd Hc.
  assert (E : empty (select_pm25 (during_label phase) df)
              || empty (select_pm25 (control_label phase) df) = false).
  { rewrite (empty_false _ Hd), (empty_false _ Hc). reflexivity. }
  rewrite (analysis_when_tested mannwhitneyu df phase E).
  cbn [trace outcome fst snd].
  split; [|split; [|split; [|split; [|split; [|split]]]]].
  - intros Hp. apply Qltb_lt in Hp. rewrite Hp. reflexivity.
  - intros Hp. apply Qltb_ge in Hp. rewrite Hp. reflexivity.
  - cbn [In]. tauto.
  - cbn [In]. tauto.
  - reflexivity.
  - reflexivity.
  - exact mean_of_values.
Qed.

(** One During day at 50 and one Control day at 100, p-value 0.01. *)
Lemma significance_decision_rule_witness :
  reported_verdict
    (trace (perform_statistical_analysis sample_test sample_halved "Phase 1"))
  = Some SignificantReduction.
Proof.
  refine (proj1 (significance_decision_rule sample_test sample_halved "Phase 1" _ _) _).
  - discriminate.
  - discriminate.
  - reflexivity.
Defined.

(** C9.  The comparison does not change its input: when the call ends the
    frame is the one it was given, so the caller goes on with the same
    rows, and a second call prints the same lines; what it prints depends
    on the frame only through the two samples of the phase. *)
Theorem analysis_leaves_frame_unchanged
    (mannwhitneyu : list float -> list float -> Q * Q)
    (df : list LRow) (phase : string) :
  outcome (perform_statistical_analysis mannwhitneyu df phase) = Ok df /\
  (forall (B : Type) (k : list LRow -> Prog B),
     bind (perform_statistical_analysis mannwhitneyu df phase) k
     = (trace (perform_statistical_analysis mannwhitneyu df phase) ++ trace (k df),
        outcome (k df))) /\
  bind (perform_statistical_analysis mannwhitneyu df phase)
       (fun df' => perform_statistical_analysis mannwhitneyu df' phase)
  = (trace (perform_statistical_analysis mannwhitneyu df phase)
     ++ trace (perform_statistical_analysis mannwhitneyu df phase),
     Ok df) /\
  (forall df',
     select_pm25 (during_label phase) df' = select_pm25 (during_label phase) df ->
     select_pm25 (control_label phase) df' = select_pm25 (control_label phase) df ->
     trace (perform_statistical_analysis mannwhitneyu df' phase)
     = trace (perform_statistical_analysis mannwhitneyu df phase) /\
     reported_verdict (trace (perform_statistical_analysis mannwhitneyu df' phase))
     = reported_verdict (trace (perform_statistical_analysis mannwhitneyu df phase))).
Proof.
  pose proof (analysis_returns_frame mannwhitneyu df phase) as Hret.
  split; [exact Hret|]. split; [|split].
  - intros B k. apply bind_after_ok. exact Hret.
  - rewrite (bind_after_ok _ df _ Hret). rewrite Hret. reflexivity.
  - intros df' Hd Hc.
    assert (E : trace (perform_statistical_analysis mannwhitneyu df' phase)
                = trace (perform_statistical_analysis mannwhitneyu df phase)).
    { destruct (empty (select_pm25 (during_label phase) df)
                || empty (select_pm25 (control_label phase) df)) eqn:E.
      - rewrite (analysis_when_empty mannwhitneyu df phase E).
        rewrite <- Hd, <- Hc in E.
        rewrite (analysis_when_empty mannwhitneyu df' phase E). reflexivity.
      - rewrite (analysis_when_tested mannwhitneyu df phase E).
        rewrite <- Hd, <- Hc in E.
        rewrite (analysis_when_tested mannwhitneyu df' phase E).
        rewrite Hd, Hc. reflexivity. }
    split; [exact E | rewrite E; reflexivity].
Qed.

(** The frame of the example comes back from the call as it went in. *)
Lemma analysis_leaves_frame_unchanged_witness :
  outcome (perform_statistical_analysis sample_test sample_halved "Phase 1")
  = Ok sample_halved.
Proof.
  exact (proj1 (analysis_leaves_frame_unchanged sample_test sample_halved "Phase 1")).
Defined.

(** ** A missing data file *)

(** C2, on the code.  When no file is found at the path the call prints
    the two diagnostic lines and leaves through [sys.exit()]; the file is
    asked for once.  [sys.exit()] carries no argument, so the exit status
    of the process is 0, not a non-zero one. *)
Theorem missing_file_exits_with_status_zero
    (read_csv : string -> option (list RawRow))
    (mannwhitneyu : list float -> list float -> Q * Q) (filepath : string) :
  read_csv filepath = None ->
  load_and_prepare_real_data read_csv filepath
  = ([ Printed (Loading filepath); ReadCsv filepath;
       Printed (ErrorNotFound filepath); Printed PleaseEnsure ],
     SysExit None) /\
  exit_status (outcome (load_and_prepare_real_data read_csv filepath)) = 0 /\
  filter is_read (trace (load_and_prepare_real_data read_csv filepath))
  = [ReadCsv filepath] /\
  (filepath = "data/city_day.csv"%string ->
   main read_csv mannwhitneyu
   = ([ Printed (Loading filepath); ReadCsv filepath;
        Printed (ErrorNotFound filepath); Printed PleaseEnsure ],
      SysExit None) /\
   exit_status (outcome (main read_csv mannwhitneyu)) = 0).
Proof.
  intros Hf.
  assert (E : load_and_prepare_real_data read_csv filepath
              = ([ Printed (Loading filepath); ReadCsv filepath;
                   Printed (ErrorNotFound filepath); Printed PleaseEnsure ],
                 SysExit None)).
  { unfold load_and_prepare_real_data. rewrite Hf. reflexivity. }
  rewrite E. cbn [outcome trace fst snd exit_status filter is_read].
  split; [reflexivity|]. split; [reflexivity|]. split; [reflexivity|].
  intros ->. unfold main. rewrite E. cbn [bind outcome snd exit_status].
  split; reflexivity.
Qed.

(** No file anywhere: the main block ends with status 0. *)
Lemma missing_file_exits_with_status_zero_witness :
  exit_status (outcome (main no_file sample_test)) = 0.
Proof.
  exact (proj2 (proj2 (proj2 (proj2 (missing_file_exits_with_status_zero
                                       no_file sample_test "data/city_day.csv"
                                       eq_refl))) eq_refl)).
Defined.

(** ** The bar chart *)

Local Open Scope string_scope.

Lemma during_not_control (phase : string) : during_label phase <> control_label phase.
Proof. cbn. discriminate. Qed.

Lemma during_contains_during (phase : string) :
  contains "During" (during_label phase) = true.
Proof. reflexivity. Qed.

Lemma control_of_policy_phase (phase : string) :
  In phase (map fst policy_periods) ->
  contains "During" (control_label phase) = false.
Proof.
  cbn [policy_periods map fst In].
  intros [<- | [<- | [<- | [<- | []]]]]; reflexivity.
Qed.

Local Close Scope string_scope.

Section Groups.

Variable phase : string.
Hypothesis control_name : contains "During" (control_label phase) = false.

Let comp (df : list LRow) : list (string * float) :=
  map (fun r => (period_of (policy_status r), pm25 (base r)))
      (filter (fun r => String.eqb (policy_status r) (during_label phase)
                        || String.eqb (policy_status r) (control_label phase)) df).

(** The rows grouped under 'During Policy' are the During sample, those
    under 'Control (Prior Year)' the Control sample. *)
Lemma groups_are_samples (df : list LRow) :
  map snd (filter (fun kv => String.eqb (fst kv) "During Policy") (comp df))
  = select_pm25 (during_label phase) df /\
  map snd (filter (fun kv => String.eqb (fst kv) "Control (Prior Year)") (comp df))
  = select_pm25 (control_label phase) df.
Proof.
  assert (Pd : period_of (during_label phase) = "During Policy"%string)
    by reflexivity.
  assert (Pc : period_of (control_label phase) = "Control (Prior Year)"%string)
    by (unfold period_of; rewrite control_name; reflexivity).
  unfold comp, select_pm25.
  induction df as [|r df [IHd IHc]]; [split; reflexivity|].
  cbn [filter].
  destruct (String.eqb_spec (policy_status r) (during_label phase)) as [Ed | Nd].
  - cbn [orb map filter fst snd]. rewrite Ed, Pd.
    change (String.eqb "During Policy" "During Policy") with true.
    change (String.eqb "During Policy" "Control (Prior Year)") with false.
    cbn [map snd].
    destruct (String.eqb_spec (during_label phase) (control_label phase)) as [E | _].
    + destruct (during_not_control phase E).
    + rewrite IHd, IHc. split; reflexivity.
  - cbn [orb].
    destruct (String.eqb_spec (policy_status r) (control_label phase)) as [Ec | Nc].
    + cbn [map filter fst snd]. rewrite Ec, Pc.
      change (String.eqb "Control (Prior Year)" "During Policy") with false.
      change (String.eqb "Control (Prior Year)" "Control (Prior Year)") with true.
      cbn [map snd].
      rewrite IHd, IHc. split; reflexivity.
    + split; assumption.
Qed.

Lemma same_rows_same_index (label : string) (df : list LRow) :
  empty (select_index label df) = empty (select_pm25 label df).
Proof.
  unfold select_index, select_pm25.
  destruct (filter (fun r => String.eqb (policy_status r) label) df); reflexivity.
Qed.

(** The chart when both samples have rows: the two means, and the
    change of the During mean against the Control mean, in percent. *)
Lemma visualizations_show_change (df : list LRow) :
  empty (select_pm25 (during_label phase) df) = false ->
  empty (select_pm25 (control_label phase) df) = false ->
  reported_pct_change (trace (create_visualizations df phase))
  = Some (fmul (fdiv (fsub (mean (select_pm25 (during_label phase) df))
                           (mean (select_pm25 (control_label phase) df)))
                     (mean (select_pm25 (control_label phase) df)))
               (Some 100%Q)).
Proof.
  intros Hd Hc. unfold create_visualizations.
  fold (comp df). unfold groupby_mean. cbn [flat_map].
  destruct (groups_are_samples df) as [-> ->]. rewrite Hd, Hc.
  cbn [app loc_period filter fst snd map].
  change (String.eqb "Control (Prior Year)" "Control (Prior Year)") with true.
  change (String.eqb "During Policy" "Control (Prior Year)") with false.
  change (String.eqb "Control (Prior Year)" "During Policy") with false.
  change (String.eqb "During Policy" "During Policy") with true.
  cbn [app loc_period filter fst snd map iloc0].
  do 4 (rewrite trace_bind;
        cbn [print emit lift trace outcome fst snd app]).
  reflexivity.
Qed.

(** Without a Control row the indexing of line 119 raises. *)
Lemma visualizations_raise_without_control (df : list LRow) :
  empty (select_pm25 (control_label phase) df) = true ->
  outcome (create_visualizations df phase) = Raise IndexError.
Proof.
  intros Hc. unfold create_visualizations.
  fold (comp df). unfold groupby_mean. cbn [flat_map].
  destruct (groups_are_samples df) as [-> ->]. rewrite Hc.
  destruct (empty (select_pm25 (during_label phase) df)); reflexivity.
Qed.

End Groups.

(** C3.  For a phase of the script, a During sample with mean 50 and a
    Control sample with mean 100, and a p-value of 0.01 from the test:
    the comparison reports a significant reduction, and the bar chart
    shows the change [((during - control) / control) * 100], which is
    -50 percent. *)
Theorem halved_mean_is_significant_minus_fifty
    (mannwhitneyu : list float -> list float -> Q * Q)
    (df : list LRow) (phase : string) (during_mean control_mean : Q) :
  In phase (map fst policy_periods) ->
  mean (select_pm25 (during_label phase) df) = Some during_mean ->
  (during_mean == 50 # 1)%Q ->
  mean (select_pm25 (control_label phase) df) = Some control_mean ->
  (control_mean == 100 # 1)%Q ->
  (snd (mannwhitneyu (select_pm25 (during_label phase) df)
                     (select_pm25 (control_label phase) df)) == 1 # 100)%Q ->
  reported_verdict (trace (perform_statistical_analysis mannwhitneyu df phase))
  = Some SignificantReduction /\
  reported_pct_change (trace (create_visualizations df phase))
  = Some (Some ((during_mean - control_mean) / control_mean * (100 # 1))%Q) /\
  ((during_mean - control_mean) / control_mean * (100 # 1) == -50 # 1)%Q.
Proof.
  intros Hphase Hd Hdv Hc Hcv Hp.
  pose proof (mean_some_nonempty _ _ Hd) as Ed.
  pose proof (mean_some_nonempty _ _ Hc) as Ec.
  split; [|split].
  - rewrite (analysis_when_tested mannwhitneyu df phase)
      by (rewrite Ed, Ec; reflexivity).
    cbn [trace fst].
    assert (Hlt : Qltb (snd (mannwhitneyu (select_pm25 (during_label phase) df)
                                          (select_pm25 (control_label phase) df)))
                       alpha = true).
    { apply Qltb_lt. rewrite Hp. reflexivity. }
    rewrite Hlt. reflexivity.
  - rewrite (visualizations_show_change phase (control_of_policy_phase phase Hphase)
               df Ed Ec).
    rewrite Hd, Hc. cbn [fsub fdiv fmul].
    assert (Hz : Qeq_bool control_mean 0 = false).
    { destruct (Qeq_bool control_mean 0) eqn:E; [|reflexivity].
      apply Qeq_bool_eq in E. rewrite Hcv in E. discriminate E. }
    rewrite Hz. reflexivity.
  - rewrite Hdv, Hcv. reflexivity.
Qed.

(** One During day at 50, one Control day at 100, p-value 0.01. *)
Lemma halved_mean_is_significant_minus_fifty_witness :
  reported_verdict
    (trace (perform_statistical_analysis sample_test sample_halved "Phase 1"))
  = Some SignificantReduction /\
  reported_pct_change (trace (create_visualizations sample_halved "Phase 1"))
  = Some (Some (((50 # 1) - (100 # 1)) / (100 # 1) * (100 # 1))%Q) /\
  (((50 # 1) - (100 # 1)) / (100 # 1) * (100 # 1) == -50 # 1)%Q.
Proof.
  refine (halved_mean_is_significant_minus_fifty
            sample_test sample_halved "Phase 1" (50 # 1) (100 # 1)
            _ eq_refl _ eq_refl _ _).
  - cbn. tauto.
  - reflexivity.
  - reflexivity.
  - reflexivity.
Defined.

(* ====================================================================== *)
(** * Further properties of the script *)
(* ====================================================================== *)

(** ** Forward fill *)

Section FillLaws.

Variable get : Row -> float.
Variable set : float -> Row -> Row.
Hypothesis get_set : forall v r, get (set v r) = v.
Hypothesis set_set : forall v w r, set v (set w r) = set v r.
Hypothesis set_get : forall r, set (get r) r = r.

Lemma fill_fill (last cur : float) : fill last (fill last cur) = fill last cur.
Proof. destruct cur, last; reflexivity. Qed.

Lemma fill_carried (last cur : float) :
  fill (fill last cur) (fill last cur) = fill last cur.
Proof. destruct cur, last; reflexivity. Qed.

Lemma ffill_from_again (last : float) (df : list Row) :
  ffill_from get set last (ffill_from get set last df) = ffill_from get set last df.
Proof.
  revert last. induction df as [|r df IH]; intros last; [reflexivity|].
  cbn [ffill_from]. rewrite get_set, set_set, fill_fill, IH. reflexivity.
Qed.

Lemma ffill_from_no_gap (last : float) (df : list Row) :
  Forall (fun r => get r <> None) df -> ffill_from get set last df = df.
Proof.
  revert last. induction df as [|r df IH]; intros last H; [reflexivity|].
  inversion H as [|? ? Hr Hrest]; subst. cbn [ffill_from].
  destruct (get r) as [x|] eqn:E; [|congruence].
  cbn [fill]. rewrite <- E, set_get, IH by exact Hrest. reflexivity.
Qed.

End FillLaws.

Lemma set_pm25_pm25 (r : Row) : set_pm25 (pm25 r) r = r.
Proof. destruct r; reflexivity. Qed.

Lemma set_no2_no2 (r : Row) : set_no2 (no2 r) r = r.
Proof. destruct r; reflexivity. Qed.

(** The two fills do not look at each other's column. *)
Lemma ffill_from_commute (lp ln : float) (df : list Row) :
  ffill_from no2 set_no2 ln (ffill_from pm25 set_pm25 lp df)
  = ffill_from pm25 set_pm25 lp (ffill_from no2 set_no2 ln df).
Proof.
  revert lp ln. induction df as [|r df IH]; intros lp ln; [reflexivity|].
  cbn [ffill_from]. rewrite IH. reflexivity.
Qed.

(** X1.  Filling a column twice is filling it once; a column with no
    missing value is left as it is; and the order of the two fills of
    lines 38 and 39 does not matter. *)
Theorem ffill_idempotent_and_commutes (df : list Row) :
  ffill pm25 set_pm25 (ffill pm25 set_pm25 df) = ffill pm25 set_pm25 df /\
  ffill no2 set_no2 (ffill no2 set_no2 df) = ffill no2 set_no2 df /\
  (Forall (fun r => pm25 r <> None) df -> ffill pm25 set_pm25 df = df) /\
  (Forall (fun r => no2 r <> None) df -> ffill no2 set_no2 df = df) /\
  ffill no2 set_no2 (ffill pm25 set_pm25 df)
  = ffill pm25 set_pm25 (ffill no2 set_no2 df).
Proof.
  unfold ffill. split; [|split; [|split; [|split]]].
  - apply ffill_from_again; reflexivity.
  - apply ffill_from_again; reflexivity.
  - apply ffill_from_no_gap. exact set_pm25_pm25.
  - apply ffill_from_no_gap. exact set_no2_no2.
  - apply ffill_from_commute.
Qed.

(** A frame without a gap in [pm25] comes back from the fill as it was. *)
Lemma ffill_idempotent_and_commutes_witness :
  ffill pm25 set_pm25 [sample_complete_row; sample_untracked_gap_row]
  = [sample_complete_row; sample_untracked_gap_row].
Proof.
  refine (proj1 (proj2 (proj2 (ffill_idempotent_and_commutes
                                 [sample_complete_row; sample_untracked_gap_row]))) _).
  repeat constructor; discriminate.
Defined.

(** ** What cleaning keeps *)

Lemma filled_complete_unchanged (df : list Row) :
  Forall (fun r => row_complete r = true) df -> filled df = df.
Proof.
  intros H. unfold filled, ffill.
  assert (Hp : Forall (fun r => pm25 r <> None) df).
  { eapply Forall_impl; [|exact H]. intros r Hr. unfold row_complete in Hr.
    destruct (pm25 r); [discriminate | discriminate Hr]. }
  assert (Hn : Forall (fun r => no2 r <> None) df).
  { eapply Forall_impl; [|exact H]. intros r Hr. unfold row_complete in Hr.
    destruct (pm25 r), (no2 r); try discriminate; discriminate Hr. }
  rewrite (ffill_from_no_gap pm25 set_pm25 set_pm25_pm25 None df Hp).
  apply (ffill_from_no_gap no2 set_no2 set_no2_no2 None df Hn).
Qed.

Lemma clean_complete (df : list Row) :
  Forall (fun r => row_complete r = true) (clean df).
Proof.
  unfold clean, dropna. apply Forall_forall. intros r Hr.
  apply filter_In in Hr. tauto.
Qed.

(** A filled row comes from an input row: same date, city and other
    columns, and every value observed in the input row is still there. *)
Lemma filled_from_origin (lp ln : float) (df : list Row) (r' : Row) :
  In r' (ffill_from no2 set_no2 ln (ffill_from pm25 set_pm25 lp df)) ->
  exists r, In r df /\ Date r' = Date r /\ City r' = City r /\
            others r' = others r /\
            (forall v, pm25 r = Some v -> pm25 r' = Some v) /\
            (forall v, no2 r = Some v -> no2 r' = Some v).
Proof.
  revert lp ln. induction df as [|r df IH]; intros lp ln; cbn [ffill_from In]; [tauto|].
  intros [<- | Hin].
  - exists r. split; [left; reflexivity|]. cbn.
    repeat split; intros v Hv; rewrite Hv; reflexivity.
  - destruct (IH _ _ Hin) as (r0 & Hr0 & H). exists r0. split; [right; exact Hr0 | exact H].
Qed.

(** X2.  The cleaned frame has no missing value left in any column;
    cleaning it again changes nothing; it has at most as many rows as the
    input; and each of its rows comes from an input row with the same date,
    city and other columns, with every value observed there unchanged. *)
Theorem clean_is_complete_and_stable (df : list Row) :
  Forall (fun r => row_complete r = true) (clean df) /\
  clean (clean df) = clean df /\
  (List.length (clean df) <= List.length df)%nat /\
  (forall r', In r' (clean df) ->
     exists r, In r df /\ Date r' = Date r /\ City r' = City r /\
               others r' = others r /\
               (forall v, pm25 r = Some v -> pm25 r' = Some v) /\
               (forall v, no2 r = Some v -> no2 r' = Some v)).
Proof.
  pose proof (clean_complete df) as Hc.
  split; [exact Hc|]. split; [|split].
  - change (clean (clean df)) with (dropna (filled (clean df))).
    rewrite (filled_complete_unchanged _ Hc). unfold dropna.
    apply filter_all. exact Hc.
  - unfold clean, dropna.
    etransitivity; [apply filter_length_le|].
    unfold ffill. rewrite !ffill_from_length. apply Nat.le_refl.
  - intros r' Hr'. unfold clean, dropna in Hr'. apply filter_In in Hr'.
    destruct Hr' as [Hr' _]. exact (filled_from_origin None None df r' Hr').
Qed.

(** ** Loading *)

Lemma index_by_date_ok (df : list RawRow) :
  Forall (fun r => to_datetime (raw_Date r) <> None) df ->
  exists rows,
    index_by_date df = Ok rows /\
    List.length rows = List.length df /\
    map City rows = map raw_City df.
Proof.
  induction df as [|r df IH]; intros H.
  - exists []. repeat split.
  - inversion H as [|? ? Hr Hrest]; subst.
    destruct (IH Hrest) as (rows & E & Hl & Hc).
    cbn [index_by_date]. destruct (to_datetime (raw_Date r)) as [t|]; [|congruence].
    rewrite E. eexists. split; [reflexivity|].
    cbn [List.length map City]. rewrite Hl, Hc. split; reflexivity.
Qed.

Lemma index_by_date_raises (df : list RawRow) :
  Exists (fun r => to_datetime (raw_Date r) = None) df ->
  index_by_date df = Raise ValueError.
Proof.
  induction df as [|r df IH]; intros H; [inversion H|].
  cbn [index_by_date]. destruct (to_datetime (raw_Date r)) as [t|] eqn:E; [|reflexivity].
  inversion H as [? ? Hr | ? ? Hrest]; subst; [congruence|].
  rewrite (IH Hrest). reflexivity.
Qed.

Lemma readable_or_not (df : list RawRow) :
  Forall (fun r => to_datetime (raw_Date r) <> None) df \/
  Exists (fun r => to_datetime (raw_Date r) = None) df.
Proof.
  induction df as [|r df [IH | IH]].
  - left. constructor.
  - destruct (to_datetime (raw_Date r)) eqn:E.
    + left. constructor; [congruence | exact IH].
    + right. left. exact E.
  - right. right. exact IH.
Qed.

Lemma delhi_rows_city (df : list RawRow) :
  Forall (fun r => raw_City r = "Delhi"%string) (delhi_rows df).
Proof.
  apply Forall_forall. intros r Hr. apply filter_In in Hr.
  destruct Hr as [_ Hr]. apply String.eqb_eq. exact Hr.
Qed.

Lemma apply_status_labels (df : list Row) (labelled : list LRow) :
  apply_status get_policy_status df = Ok labelled ->
  map base labelled = df /\
  Forall (fun r => get_policy_status (Date (base r)) = Ok (policy_status r)) labelled.
Proof.
  revert labelled. induction df as [|r df IH]; intros labelled; cbn [apply_status].
  - intros H. apply Ok_inj in H. subst. split; [reflexivity | constructor].
  - destruct (get_policy_status (Date r)) as [s | e | c] eqn:Es; try discriminate.
    destruct (apply_status get_policy_status df) as [rest | e | c]; try discriminate.
    intros H. apply Ok_inj in H. subst.
    destruct (IH rest eq_refl) as [Hm Hf].
    split; [cbn [map base]; rewrite Hm; reflexivity|].
    constructor; [exact Es | exact Hf].
Qed.

Section Loading.

Variable read_csv : string -> option (list RawRow).
Variable filepath : string.
Variable df : list RawRow.
Hypothesis file_found : read_csv filepath = Some df.

(** The run of the function on a file that is found, by the dates of its
    Delhi rows. *)
Lemma load_run_readable :
  Forall (fun r => to_datetime (raw_Date r) <> None) (delhi_rows df) ->
  exists rows labelled,
    index_by_date (delhi_rows df) = Ok rows /\
    apply_status get_policy_status (clean rows) = Ok labelled /\
    load_and_prepare_real_data read_csv filepath
    = ([ Printed (Loading filepath); ReadCsv filepath;
         Printed (FoundRows (List.length (delhi_rows df)));
         Printed PreparationComplete ],
       Ok labelled).
Proof.
  intros H. destruct (index_by_date_ok _ H) as (rows & Hi & _).
  destruct (apply_status_total (clean rows)) as (labelled & Hl & _).
  exists rows, labelled. split; [exact Hi|]. split; [exact Hl|].
  unfold load_and_prepare_real_data. rewrite file_found.
  fold (delhi_rows df). unfold bind, print, emit, lift, ret.
  rewrite Hi. unfold clean in Hl. rewrite Hl. reflexivity.
Qed.

Lemma load_run_unreadable :
  Exists (fun r => to_datetime (raw_Date r) = None) (delhi_rows df) ->
  load_and_prepare_real_data read_csv filepath
  = ([ Printed (Loading filepath); ReadCsv filepath;
       Printed (FoundRows (List.length (delhi_rows df))) ],
     Raise ValueError).
Proof.
  intros H. unfold load_and_prepare_real_data. rewrite file_found.
  fold (delhi_rows df). unfold bind, print, emit, lift, ret.
  rewrite (index_by_date_raises _ H). reflexivity.
Qed.

End Loading.

(** X3.  When the call returns a frame, every row of it is a Delhi row
    with no missing value in any column, labelled with the status of its
    own date; the frame has at most as many rows as the count printed in
    "Found n rows for Delhi", which is the number of Delhi rows of the file
    before cleaning; and the file was read once. *)
Theorem load_output_invariants
    (read_csv : string -> option (list RawRow)) (filepath : string)
    (df : list RawRow) (labelled : list LRow) :
  read_csv filepath = Some df ->
  outcome (load_and_prepare_real_data read_csv filepath) = Ok labelled ->
  Forall (fun r => City (base r) = "Delhi"%string /\
                   row_complete (base r) = true /\
                   get_policy_status (Date (base r)) = Ok (policy_status r))
         labelled /\
  (List.length labelled <= List.length (delhi_rows df))%nat /\
  trace (load_and_prepare_real_data read_csv filepath)
  = [ Printed (Loading filepath); ReadCsv filepath;
      Printed (FoundRows (List.length (delhi_rows df)));
      Printed PreparationComplete ].
Proof.
  intros Hf Hout.
  destruct (readable_or_not (delhi_rows df)) as [Hr | Hr].
  2:{ rewrite (load_run_unreadable read_csv filepath df Hf Hr) in Hout.
      discriminate Hout. }
  destruct (load_run_readable read_csv filepath df Hf Hr)
    as (rows & lab & Hi & Hl & Hrun).
  rewrite Hrun in Hout |- *. cbn [outcome trace fst snd] in Hout |- *.
  apply Ok_inj in Hout. subst lab.
  destruct (apply_status_labels _ _ Hl) as [Hbase Hstat].
  destruct (index_by_date_ok _ Hr) as (rows' & Hi' & Hlen & Hcity).
  rewrite Hi in Hi'. apply Ok_inj in Hi'. subst rows'.
  destruct (clean_is_complete_and_stable rows) as (Hcompl & _ & Hle & Horig).
  split; [|split; [|reflexivity]].
  - apply Forall_forall. intros r Hr'.
    assert (Hin : In (base r) (clean rows)).
    { rewrite <- Hbase. apply in_map. exact Hr'. }
    split; [|split].
    + destruct (Horig _ Hin) as (r0 & Hr0 & _ & Hc & _). rewrite Hc.
      assert (Hc0 : In (City r0) (map raw_City (delhi_rows df))).
      { rewrite <- Hcity. apply in_map. exact Hr0. }
      apply in_map_iff in Hc0. destruct Hc0 as (raw & <- & Hraw).
      pose proof (delhi_rows_city df) as Hd. rewrite Forall_forall in Hd.
      exact (Hd raw Hraw).
    + rewrite Forall_forall in Hcompl. exact (Hcompl _ Hin).
    + rewrite Forall_forall in Hstat. exact (Hstat r Hr').
  - rewrite <- Hlen. rewrite <- (length_map base labelled), Hbase. exact Hle.
Qed.

Lemma load_output_invariants_witness :
  trace (load_and_prepare_real_data sample_file "data/city_day.csv")
  = [ Printed (Loading "data/city_day.csv"); ReadCsv "data/city_day.csv";
      Printed (FoundRows 1); Printed PreparationComplete ].
Proof.
  refine (proj2 (proj2 (load_output_invariants sample_file "data/city_day.csv"
                          _ _ eq_refl eq_refl))).
Defined.



(** ** More on the labelling loop *)

Lemma status_hit_prefix (pre rest : list (string * period)) (d : Z) (label : string) :
  get_policy_status_in pre d = Ok label -> label <> "Normal Day"%string ->
  get_policy_status_in (pre ++ rest) d = Ok label.
Proof.
  induction pre as [|[phase dates] pre IH]; cbn [app get_policy_status_in].
  - intros H Hn. apply Ok_inj in H. congruence.
  - destruct (to_datetime (start dates)) as [s|]; [|discriminate].
    destruct (to_datetime (end_ dates)) as [e|]; [|discriminate].
    cbn zeta.
    destruct ((s <=? d) && (d <=? e)); [tauto|].
    destruct ((sub_days 1 (s - (e - s)) <=? d) && (d <? s)); [tauto|].
    destruct ((sub_years 1 s <=? d) && (d <=? sub_years 1 e)); [tauto|].
    exact IH.
Qed.

(** X5.  The loop returns at the first entry one of whose windows holds
    the date and never parses the entries after it: the label is the same
    whatever follows in the dictionary, be it an entry whose dates cannot
    be read. *)
Theorem later_entries_are_not_parsed
    (pre post post' : list (string * period)) (d : Z) (label : string) :
  get_policy_status_in pre d = Ok label -> label <> "Normal Day"%string ->
  get_policy_status_in (pre ++ post) d = Ok label /\
  get_policy_status_in (pre ++ post') d = get_policy_status_in (pre ++ post) d.
Proof.
  intros H Hn.
  rewrite (status_hit_prefix pre post d label H Hn).
  rewrite (status_hit_prefix pre post' d label H Hn).
  split; reflexivity.
Qed.

(** In [malformed_periods], 2016-01-05 is labelled by phase A; the
    entry of phase B is not reached. *)
Lemma later_entries_are_not_parsed_witness :
  get_policy_status_in malformed_periods 16805 = Ok "During A"%string.
Proof.
  refine (proj1 (later_entries_are_not_parsed
                   [("A"%string, mkPeriod "2016-01-01" "2016-01-15")]
                   [("B"%string, mkPeriod "not a date" "2016-01-20")] []
                   16805 "During A"%string eq_refl _)).
  discriminate.
Defined.

(** The three windows of one phase do not meet when the phase lasts at
    most 182 days. *)
Lemma phase_windows_disjoint (s e d : Z) (k k' : kind) :
  0 <= e - s <= 181 ->
  in_window k s e d -> in_window k' s e d -> k = k'.
Proof.
  intros HD Hk Hk'.
  pose proof (sub_one_year_distance s) as Hs.
  pose proof (sub_one_year_distance e) as He.
  destruct k, k'; cbn in Hk, Hk'; try reflexivity; exfalso; lia.
Qed.

(** X6.  For a phase of at most 182 days ([end - start <= 181]) the order
    of the three tests inside a turn of the loop plays no part: a date no
    earlier entry takes gets the During, Before or Control label of the
    phase exactly when it lies in that window. *)
Theorem short_phase_label_iff_window
    (pre post : list (string * period)) (phase : string) (dates : period)
    (s e d : Z) (k : kind) :
  NoDup (map fst (pre ++ (phase, dates) :: post)) ->
  Forall readable pre -> bounds dates = Some (s, e) ->
  0 <= e - s <= 181 ->
  Forall (fun q => ~ claims q d) pre ->
  (get_policy_status_in (pre ++ (phase, dates) :: post) d = Ok (label_of k phase)
   <-> in_window k s e d).
Proof.
  intros Hn Hr Hb HD Hc.
  destruct (in_window_dec During s e d) as [HDu | HDu].
  { rewrite (status_skip_prefix pre _ d Hr Hc).
    rewrite (status_step_during _ _ _ _ _ _ Hb HDu). split.
    - intros H. apply Ok_inj in H. apply (label_of_inj During) in H.
      destruct H as [<- _]. exact HDu.
    - intros H. rewrite (phase_windows_disjoint s e d _ _ HD H HDu). reflexivity. }
  destruct (in_window_dec Before s e d) as [HBe | HBe].
  { rewrite (status_skip_prefix pre _ d Hr Hc).
    rewrite (status_step_before _ _ _ _ _ _ Hb HBe). split.
    - intros H. apply Ok_inj in H. apply (label_of_inj Before) in H.
      destruct H as [<- _]. exact HBe.
    - intros H. rewrite (phase_windows_disjoint s e d _ _ HD H HBe). reflexivity. }
  apply (status_iff_window pre post phase dates s e d k Hn Hr Hb Hc).
  intros _. split; assumption.
Qed.

(** Phase 2 of the script lasts 16 days; 2015-04-20 is a Control day. *)
Lemma short_phase_label_iff_window_witness :
  get_policy_status_in
    ([("Phase 1"%string, mkPeriod "2016-01-01" "2016-01-15")]
     ++ ("Phase 2"%string, mkPeriod "2016-04-15" "2016-04-30")
     :: [ ("Phase 3"%string, mkPeriod "2017-11-13" "2017-11-17");
          ("Phase 4"%string, mkPeriod "2019-11-04" "2019-11-15") ])
    16545
  = Ok "Control Phase 2"%string.
Proof.
  refine (proj2 (short_phase_label_iff_window
                   [("Phase 1"%string, mkPeriod "2016-01-01" "2016-01-15")]
                   [ ("Phase 3"%string, mkPeriod "2017-11-13" "2017-11-17");
                     ("Phase 4"%string, mkPeriod "2019-11-04" "2019-11-15") ]
                   "Phase 2"%string (mkPeriod "2016-04-15" "2016-04-30")
                   16906 16921 16545 Control
                   policy_periods_names _ eq_refl _ _) _).
  - repeat constructor. unfold readable. vm_compute. discriminate.
  - lia.
  - repeat constructor. intros (s & e & k & Hb & Hw).
    vm_compute in Hb. injection Hb as <- <-.
    destruct k; vm_compute in Hw; destruct Hw as [H1 H2];
      first [apply H1; reflexivity | apply H2; reflexivity | discriminate].
  - vm_compute. split; discriminate.
Defined.

(** ** The Before and Control windows against the During window *)

Lemma policy_label_iff (phase : string) (dates : period) (s e : Z) :
  In (phase, dates) policy_periods -> bounds dates = Some (s, e) ->
  forall k d, get_policy_status d = Ok (label_of k phase) <-> in_window k s e d.
Proof.
  intros Hin Hb k d. rewrite policy_status_matches.
  exact (policy_matches_entry d phase dates s e k Hin Hb).
Qed.

(** X7.  For each phase of the script the Before window is the During
    window moved back by its own length: a date is labelled Before exactly
    when the date [D + 1] days later is labelled During, [D] being
    [end - start]. *)
Theorem before_is_during_moved_back
    (phase : string) (dates : period) (s e d : Z) :
  In (phase, dates) policy_periods -> bounds dates = Some (s, e) ->
  (get_policy_status d = Ok (before_label phase)
   <-> get_policy_status (d + (e - s) + 1) = Ok (during_label phase)).
Proof.
  intros Hin Hb.
  rewrite (policy_label_iff phase dates s e Hin Hb Before d).
  rewrite (policy_label_iff phase dates s e Hin Hb During (d + (e - s) + 1)).
  cbn. lia.
Qed.

(** Phase 4: 2019-10-23 is twelve days before 2019-11-04. *)
Lemma before_is_during_moved_back_witness :
  get_policy_status 18192 = Ok "Before Phase 4"%string.
Proof.
  refine (proj2 (before_is_during_moved_back
                   "Phase 4"%string (mkPeriod "2019-11-04" "2019-11-15")
                   18204 18215 18192 _ eq_refl) _).
  - cbn. tauto.
  - reflexivity.
Defined.

(** A window whose ends are not next to a 29 February is found back
    from its days of the previous year. *)
Lemma year_shift_reflects (s e d : Z) :
  sub_years 1 (s - 1) < sub_years 1 s ->
  sub_years 1 e < sub_years 1 (e + 1) ->
  sub_years 1 s <= sub_years 1 d <= sub_years 1 e ->
  s <= d <= e.
Proof.
  intros Hs He [H1 H2]. split.
  - destruct (Z_le_gt_dec s d) as [|Hgt]; [assumption|].
    pose proof (sub_years_monotone 1 d (s - 1)). lia.
  - destruct (Z_le_gt_dec d e) as [|Hgt]; [assumption|].
    pose proof (sub_years_monotone 1 (e + 1) d). lia.
Qed.

(** X8.  A day of a During window has its day one calendar year earlier
    in the Control window of the same phase, for any phase; and for the
    phases of the script a date is labelled During exactly when the same
    date of the previous year is labelled Control. *)
Theorem control_is_during_a_year_before :
  (forall s e d, in_window During s e d -> in_window Control s e (sub_years 1 d)) /\
  (forall phase dates s e d,
     In (phase, dates) policy_periods -> bounds dates = Some (s, e) ->
     (get_policy_status d = Ok (during_label phase)
      <-> get_policy_status (sub_years 1 d) = Ok (control_label phase))).
Proof.
  assert (Hgen : forall s e d,
            in_window During s e d -> in_window Control s e (sub_years 1 d)).
  { intros s e d [H1 H2]. cbn.
    split; apply sub_years_monotone; assumption. }
  split; [exact Hgen|].
  intros phase dates s e d Hin Hb.
  rewrite (policy_label_iff phase dates s e Hin Hb During d).
  rewrite (policy_label_iff phase dates s e Hin Hb Control (sub_years 1 d)).
  split; [apply Hgen|].
  intros H. cbn in H |- *.
  destruct (policy_entry_cases _ _ _ _ Hin Hb)
    as [(_ & -> & ->) | [(_ & -> & ->) | [(_ & -> & ->) | (_ & -> & ->)]]];
    (apply year_shift_reflects; [vm_compute; reflexivity | vm_compute; reflexivity | exact H]).
Qed.

(** 2016-04-20 is a During day of Phase 2, so 2015-04-20 is a Control day. *)
Lemma control_is_during_a_year_before_witness :
  get_policy_status (sub_years 1 16911) = Ok "Control Phase 2"%string.
Proof.
  refine (proj1 (proj2 control_is_during_a_year_before
                   "Phase 2"%string (mkPeriod "2016-04-15" "2016-04-30")
                   16906 16921 16911 _ eq_refl) _).
  - cbn. tauto.
  - reflexivity.
Defined.

(** ** More on the comparison *)

(** X9.  The test is never called on an empty sample, and it is called at
    most once, on the two samples of the phase; a line that reports
    significance or its absence stands in the output only after that
    call. *)
Theorem test_called_only_on_two_samples
    (mannwhitneyu : list float -> list float -> Q * Q)
    (df : list LRow) (phase : string) :
  (forall x y,
     In (MannWhitneyU x y)
        (trace (perform_statistical_analysis mannwhitneyu df phase)) ->
     x = select_pm25 (during_label phase) df /\
     y = select_pm25 (control_label phase) df /\ x <> [] /\ y <> []) /\
  (List.length (filter is_test_call
                  (trace (perform_statistical_analysis mannwhitneyu df phase)))
   <= 1)%nat /\
  (forall before l after,
     trace (perform_statistical_analysis mannwhitneyu df phase)
     = before ++ Printed l :: after ->
     l = ResultSignificant \/ l = ResultNotSignificant ->
     In (MannWhitneyU (select_pm25 (during_label phase) df)
                      (select_pm25 (control_label phase) df))
        before).
Proof.
  destruct (empty (select_pm25 (during_label phase) df)
            || empty (select_pm25 (control_label phase) df)) eqn:E.
  - rewrite (analysis_when_empty mannwhitneyu df phase E). cbn [trace fst].
    split; [|split].
    + intros x y [H | [H | []]]; discriminate H.
    + cbn. lia.
    + intros before l after Hsplit Hl. exfalso.
      destruct before as [|b0 [|b1 [|b2 before]]]; cbn [app] in Hsplit;
        try (injection Hsplit as _ _ Hsplit; destruct before; discriminate Hsplit);
        injection Hsplit; intros; subst; destruct Hl; discriminate.
  - rewrite (analysis_when_tested mannwhitneyu df phase E). cbn [trace fst].
    apply orb_false_iff in E. destruct E as [Ed Ec].
    split; [|split].
    + intros x y Hin. cbn [In] in Hin.
      destruct Hin as [H | [H | [H | [H | [H | [H | [H | []]]]]]]];
        try discriminate H.
      injection H as <- <-. repeat split.
      * intros H0. rewrite H0 in Ed. discriminate Ed.
      * intros H0. rewrite H0 in Ec. discriminate Ec.
    + cbn [filter is_test_call List.length]. lia.
    + intros before l after Hsplit Hl.
      destruct before as [|b0 [|b1 before]]; cbn [app] in Hsplit.
      * injection Hsplit; intros; subst; destruct Hl; discriminate.
      * injection Hsplit; intros; discriminate.
      * injection Hsplit as <- <- _. right. left. reflexivity.
Qed.

(** X10.  Every run of the comparison prints exactly one outcome line:
    not enough data, significant, or not significant. *)
Theorem exactly_one_verdict_line
    (mannwhitneyu : list float -> list float -> Q * Q)
    (df : list LRow) (phase : string) :
  List.length (filter is_verdict_line
                 (trace (perform_statistical_analysis mannwhitneyu df phase)))
  = 1%nat /\
  exists v,
    reported_verdict (trace (perform_statistical_analysis mannwhitneyu df phase))
    = Some v.
Proof.
  destruct (empty (select_pm25 (during_label phase) df)
            || empty (select_pm25 (control_label phase) df)) eqn:E.
  - rewrite (analysis_when_empty mannwhitneyu df phase E).
    split; [reflexivity | eexists; reflexivity].
  - rewrite (analysis_when_tested mannwhitneyu df phase E). cbn [trace fst].
    match goal with
    | |- context [Qltb ?p alpha] => destruct (Qltb p alpha)
    end; (split; [reflexivity | eexists; reflexivity]).
Qed.

(** ** The visualisation step *)

Section Charts.

Variable phase : string.
Hypothesis control_name : contains "During" (control_label phase) = false.

(** The run when both samples have rows: the three figures, in order. *)
Lemma visualizations_when_both (df : list LRow) :
  empty (select_pm25 (during_label phase) df) = false ->
  empty (select_pm25 (control_label phase) df) = false ->
  exists comp control_year during_year,
    iloc0 (map year_of (select_index (control_label phase) df)) = Ok control_year /\
    iloc0 (map year_of (select_index (during_label phase) df)) = Ok during_year /\
    create_visualizations df phase
    = ([ Printed GeneratingVisualizations;
         Shown (BarChart
                  [ ("Control (Prior Year)"%string,
                     mean (select_pm25 (control_label phase) df));
                    ("During Policy"%string,
                     mean (select_pm25 (during_label phase) df)) ]
                  (fmul (fdiv (fsub (mean (select_pm25 (during_label phase) df))
                                    (mean (select_pm25 (control_label phase) df)))
                              (mean (select_pm25 (control_label phase) df)))
                        (Some 100%Q)));
         Shown (ViolinPlot comp);
         Shown (CalendarHeatmaps control_year during_year) ],
       Ok df).
Proof.
  intros Hd Hc.
  pose proof (same_rows_same_index (control_label phase) df) as Ic.
  pose proof (same_rows_same_index (during_label phase) df) as Id.
  rewrite Hc in Ic. rewrite Hd in Id.
  destruct (select_index (control_label phase) df) as [|tc lc] eqn:Ec; [discriminate|].
  destruct (select_index (during_label phase) df) as [|td ld] eqn:Ed; [discriminate|].
  eexists. exists (year_of tc), (year_of td).
  split; [reflexivity|]. split; [reflexivity|].
  unfold create_visualizations. rewrite Ec, Ed. unfold groupby_mean. cbn [flat_map].
  destruct (groups_are_samples phase control_name df) as [-> ->]. rewrite Hd, Hc.
  cbn [app loc_period filter fst snd map].
  change (String.eqb "Control (Prior Year)" "Control (Prior Year)") with true.
  change (String.eqb "During Policy" "Control (Prior Year)") with false.
  change (String.eqb "Control (Prior Year)" "During Policy") with false.
  change (String.eqb "During Policy" "During Policy") with true.
  cbn [app loc_period filter fst snd map iloc0].
  reflexivity.
Qed.

(** The run when a sample has no row: the announcement, then the error. *)
Lemma visualizations_when_missing (df : list LRow) :
  empty (select_pm25 (during_label phase) df)
  || empty (select_pm25 (control_label phase) df) = true ->
  create_visualizations df phase
  = ([Printed GeneratingVisualizations], Raise IndexError).
Proof.
  intros H. unfold create_visualizations. unfold groupby_mean. cbn [flat_map].
  destruct (groups_are_samples phase control_name df) as [-> ->].
  destruct (empty (select_pm25 (control_label phase) df)) eqn:Hc.
  - destruct (empty (select_pm25 (during_label phase) df)); reflexivity.
  - rewrite orb_false_r in H. rewrite H.
    cbn [app loc_period filter fst snd map].
    change (String.eqb "Control (Prior Year)" "Control (Prior Year)") with true.
    change (String.eqb "Control (Prior Year)" "During Policy") with false.
    reflexivity.
Qed.

End Charts.

(** ** An empty sample in the main block *)

(** C7, on the code.  When the During or the Control sample of the phase
    is empty, the comparison prints the "not enough data" line, does not
    call the test, raises nothing and returns with the frame as it was.
    The run does not go on from there: the visualisation step, which has
    no such guard, raises [IndexError] on the same frame, and the main
    block ends with exit status 1. *)
Theorem empty_sample_reported_then_fatal
    (mannwhitneyu : list float -> list float -> Q * Q)
    (df : list LRow) (phase : string) :
  empty (select_pm25 (during_label phase) df) = true \/
  empty (select_pm25 (control_label phase) df) = true ->
  perform_statistical_analysis mannwhitneyu df phase
  = ([Printed (AnalysisHeader phase); Printed NotEnoughData], Ok df) /\
  reported_verdict (trace (perform_statistical_analysis mannwhitneyu df phase))
  = Some Inconclusive /\
  existsb is_test_call (trace (perform_statistical_analysis mannwhitneyu df phase))
  = false /\
  (In phase (map fst policy_periods) ->
   create_visualizations df phase
   = ([Printed GeneratingVisualizations], Raise IndexError)) /\
  (forall read_csv,
     phase = "Phase 1"%string ->
     outcome (load_and_prepare_real_data read_csv "data/city_day.csv") = Ok df ->
     main read_csv mannwhitneyu
     = (trace (load_and_prepare_real_data read_csv "data/city_day.csv")
        ++ [ Printed (AnalysisHeader "Phase 1"); Printed NotEnoughData;
             Printed GeneratingVisualizations ],
        Raise IndexError) /\
     exit_status (outcome (main read_csv mannwhitneyu)) = 1).
Proof.
  intros H.
  assert (E : empty (select_pm25 (during_label phase) df)
              || empty (select_pm25 (control_label phase) df) = true).
  { apply orb_true_iff. exact H. }
  pose proof (analysis_when_empty mannwhitneyu df phase E) as Hrun.
  rewrite Hrun. cbn [trace fst].
  split; [reflexivity|]. split; [reflexivity|]. split; [reflexivity|]. split.
  - intros Hphase.
    exact (visualizations_when_missing phase (control_of_policy_phase phase Hphase) df E).
  - intros read_csv Hp Hload. subst phase.
    assert (Hphase : In "Phase 1"%string (map fst policy_periods)) by (cbn; tauto).
    unfold main. rewrite (bind_after_ok _ df _ Hload). rewrite Hrun. cbn [bind].
    rewrite (visualizations_when_missing "Phase 1"
               (control_of_policy_phase _ Hphase) df E).
    cbn [bind trace outcome fst snd exit_status]. split; reflexivity.
Qed.

(** A file whose only Delhi row is a During day of Phase 1: the run
    reports that there is not enough data and ends with status 1. *)
Lemma empty_sample_reported_then_fatal_witness :
  exit_status (outcome (main sample_file sample_test)) = 1.
Proof.
  refine (proj2 (proj2 (proj2 (proj2 (proj2
            (empty_sample_reported_then_fatal sample_test
               [ mkLRow (mkRow 16805 "Delhi" (Some (50 # 1)) (Some (30 # 1)) [])
                        "During Phase 1" ]
               "Phase 1" _)))) sample_file eq_refl eq_refl)).
  right. reflexivity.
Defined.

(** X11.  For a phase name of the script, the visualisation step raises
    [IndexError] exactly when the During or the Control sample has no row,
    and then it has drawn nothing; otherwise it shows the bar chart of the
    two means with the percent change, the distribution plot and the two
    calendar heatmaps (for the years of the first Control and the first
    During row), in this order, and returns with the frame unchanged. *)
Theorem visualizations_need_both_samples (df : list LRow) (phase : string) :
  In phase (map fst policy_periods) ->
  (outcome (create_visualizations df phase) = Raise IndexError
   <-> select_pm25 (during_label phase) df = [] \/
       select_pm25 (control_label phase) df = []) /\
  (outcome (create_visualizations df phase) = Raise IndexError ->
   trace (create_visualizations df phase) = [Printed GeneratingVisualizations]) /\
  (select_pm25 (during_label phase) df <> [] ->
   select_pm25 (control_label phase) df <> [] ->
   exists comp control_year during_year,
     iloc0 (map year_of (select_index (control_label phase) df)) = Ok control_year /\
     iloc0 (map year_of (select_index (during_label phase) df)) = Ok during_year /\
     create_visualizations df phase
     = ([ Printed GeneratingVisualizations;
          Shown (BarChart
                   [ ("Control (Prior Year)"%string,
                      mean (select_pm25 (control_label phase) df));
                     ("During Policy"%string,
                      mean (select_pm25 (during_label phase) df)) ]
                   (fmul (fdiv (fsub (mean (select_pm25 (during_label phase) df))
                                     (mean (select_pm25 (control_label phase) df)))
                               (mean (select_pm25 (control_label phase) df)))
                         (Some 100%Q)));
          Shown (ViolinPlot comp);
          Shown (CalendarHeatmaps control_year during_year) ],
        Ok df)).
Proof.
  intros Hphase. pose proof (control_of_policy_phase phase Hphase) as Hname.
  assert (Hempty : forall l : list float, empty l = true <-> l = []).
  { intros l. destruct l; split; intros H; try reflexivity; discriminate H. }
  destruct (empty (select_pm25 (during_label phase) df)
            || empty (select_pm25 (control_label phase) df)) eqn:E.
  - rewrite (visualizations_when_missing phase Hname df E).
    cbn [outcome trace fst snd].
    apply orb_true_iff in E. rewrite !Hempty in E.
    split; [tauto|]. split; [reflexivity|]. intros Hd Hc. tauto.
  - apply orb_false_iff in E. destruct E as [Ed Ec].
    destruct (visualizations_when_both phase Hname df Ed Ec)
      as (comp & cy & dy & Hcy & Hdy & Hrun).
    rewrite Hrun. cbn [outcome trace fst snd].
    split; [|split].
    + split; [discriminate|]. intros [H | H].
      * rewrite H in Ed. discriminate Ed.
      * rewrite H in Ec. discriminate Ec.
    + discriminate.
    + intros _ _. exists comp, cy, dy. auto.
Qed.

(** The frame without a Control day of Phase 1. *)
Lemma visualizations_need_both_samples_witness :
  outcome (create_visualizations sample_no_control "Phase 1") = Raise IndexError.
Proof.
  refine (proj2 (proj1 (visualizations_need_both_samples
                          sample_no_control "Phase 1" _)) _).
  - cbn. tauto.
  - right. reflexivity.
Defined.

(** With a phase name that contains "During", every row of [comp_df] is
    put under 'During Policy'. *)
Lemma control_group_empty (phase : string) (df : list LRow) :
  contains "During" (control_label phase) = true ->
  filter (fun kv : string * float => String.eqb (fst kv) "Control (Prior Year)")
    (map (fun r => (period_of (policy_status r), pm25 (base r)))
       (filter (fun r => String.eqb (policy_status r) (during_label phase)
                         || String.eqb (policy_status r) (control_label phase)) df))
  = [].
Proof.
  intros Hname.
  assert (Pd : period_of (during_label phase) = "During Policy"%string)
    by reflexivity.
  assert (Pc : period_of (control_label phase) = "During Policy"%string)
    by (unfold period_of; rewrite Hname; reflexivity).
  induction df as [|r df IH]; [reflexivity|].
  cbn [filter].
  destruct (String.eqb_spec (policy_status r) (during_label phase)) as [Ed | Nd].
  - cbn [orb map filter fst]. rewrite Ed, Pd.
    change (String.eqb "During Policy" "Control (Prior Year)") with false.
    exact IH.
  - cbn [orb].
    destruct (String.eqb_spec (policy_status r) (control_label phase)) as [Ec | Nc].
    + cbn [map filter fst]. rewrite Ec, Pc.
      change (String.eqb "During Policy" "Control (Prior Year)") with false.
      exact IH.
    + exact IH.
Qed.

(** X12.  The grouping of line 110 tests whether the status contains
    "During".  For a phase name that itself contains "During" the Control
    rows are put under 'During Policy' as well, the Control group is empty,
    and the step raises [IndexError] for every frame, drawing nothing. *)
Theorem during_in_phase_name_breaks_grouping (df : list LRow) (phase : string) :
  contains "During" (control_label phase) = true ->
  create_visualizations df phase
  = ([Printed GeneratingVisualizations], Raise IndexError).
Proof.
  intros Hname. unfold create_visualizations, groupby_mean. cbn [flat_map].
  rewrite (control_group_empty phase df Hname). cbn [map empty app].
  match goal with
  | |- context [empty ?g] => destruct (empty g)
  end; reflexivity.
Qed.

(** Both samples of the phase "During the ban" have a row, and the step
    still raises. *)
Lemma during_in_phase_name_breaks_grouping_witness :
  select_pm25 (during_label sample_during_name) sample_during_frame <> [] /\
  select_pm25 (control_label sample_during_name) sample_during_frame <> [] /\
  create_visualizations sample_during_frame sample_during_name
  = ([Printed GeneratingVisualizations], Raise IndexError).
Proof.
  split; [discriminate|]. split; [discriminate|].
  exact (during_in_phase_name_breaks_grouping
           sample_during_frame sample_during_name eq_refl).
Defined.

(** ** The percent change *)

Lemma percent_sign (d c : Q) :
  (0 < c)%Q ->
  ((d - c) / c * (100 # 1) < 0 <-> d < c)%Q /\
  ((d - c) / c * (100 # 1) == 0 <-> d == c)%Q /\
  (0 <= d -> - (100 # 1) <= (d - c) / c * (100 # 1))%Q.
Proof.
  intros Hc.
  assert (Hi : (0 < / c)%Q) by (apply Qinv_lt_0_compat; exact Hc).
  assert (Hci : (c * / c == 1)%Q) by (apply Qmult_inv_r; lra).
  unfold Qdiv. set (k := (/ c)%Q) in *.
  split; [|split].
  - split; intros H; nra.
  - split; intros H; nra.
  - intros Hd. nra.
Qed.

(** X13.  With a positive Control mean the bar chart shows
    [((during - control) / control) * 100]: negative exactly when the
    During mean is the lower one, zero exactly when the means are equal,
    and never below -100 for a During mean that is not negative.  With a
    Control mean of zero the division has no finite value and the
    annotation is not a number. *)
Theorem percent_change_sign
    (df : list LRow) (phase : string) (during_mean control_mean : Q) :
  In phase (map fst policy_periods) ->
  mean (select_pm25 (during_label phase) df) = Some during_mean ->
  mean (select_pm25 (control_label phase) df) = Some control_mean ->
  ((0 < control_mean)%Q ->
   reported_pct_change (trace (create_visualizations df phase))
   = Some (Some ((during_mean - control_mean) / control_mean * (100 # 1))%Q) /\
   ((during_mean - control_mean) / control_mean * (100 # 1) < 0
    <-> during_mean < control_mean)%Q /\
   ((during_mean - control_mean) / control_mean * (100 # 1) == 0
    <-> during_mean == control_mean)%Q /\
   (0 <= during_mean ->
    - (100 # 1) <= (during_mean - control_mean) / control_mean * (100 # 1))%Q) /\
  ((control_mean == 0)%Q ->
   reported_pct_change (trace (create_visualizations df phase)) = Some None).
Proof.
  intros Hphase Hd Hc.
  pose proof (mean_some_nonempty _ _ Hd) as Ed.
  pose proof (mean_some_nonempty _ _ Hc) as Ec.
  rewrite (visualizations_show_change phase (control_of_policy_phase phase Hphase)
             df Ed Ec).
  rewrite Hd, Hc. cbn [fsub fdiv fmul].
  split.
  - intros Hpos.
    assert (Hz : Qeq_bool control_mean 0 = false).
    { destruct (Qeq_bool control_mean 0) eqn:E; [|reflexivity].
      apply Qeq_bool_eq in E. lra. }
    rewrite Hz. split; [reflexivity|]. apply percent_sign. exact Hpos.
  - intros Hzero.
    assert (Hz : Qeq_bool control_mean 0 = true)
      by (apply Qeq_bool_iff; exact Hzero).
    rewrite Hz. reflexivity.
Qed.

(** Equal means of 80: the chart shows a change of zero. *)
Lemma percent_change_sign_witness :
  reported_pct_change (trace (create_visualizations sample_equal "Phase 1"))
  = Some (Some (((80 # 1) - (80 # 1)) / (80 # 1) * (100 # 1))%Q).
Proof.
  refine (proj1 (proj1 (percent_change_sign sample_equal "Phase 1" (80 # 1) (80 # 1)
                          _ eq_refl eq_refl) _)).
  - cbn. tauto.
  - reflexivity.
Defined.

(** ** The main block *)

Lemma missing_file_runs (read_csv : string -> option (list RawRow)) (filepath : string) :
  read_csv filepath = None ->
  load_and_prepare_real_data read_csv filepath
  = ([ Printed (Loading filepath); ReadCsv filepath;
       Printed (ErrorNotFound filepath); Printed PleaseEnsure ],
     SysExit None).
Proof.
  intros Hf. unfold load_and_prepare_real_data. rewrite Hf. reflexivity.
Qed.

Lemma load_makes_no_test_call
    (read_csv : string -> option (list RawRow)) (filepath : string) :
  filter is_test_call (trace (load_and_prepare_real_data read_csv filepath)) = [].
Proof.
  destruct (read_csv filepath) as [df|] eqn:Hf.
  - destruct (readable_or_not (delhi_rows df)) as [Hr | Hr].
    + destruct (load_run_readable read_csv filepath df Hf Hr)
        as (rows & lab & _ & _ & ->). reflexivity.
    + rewrite (load_run_unreadable read_csv filepath df Hf Hr). reflexivity.
  - rewrite (missing_file_runs read_csv filepath Hf). reflexivity.
Qed.

(** X14.  The main block ends in one of four ways: with [sys.exit()] when
    the file is missing; with the exception of the loading step when a
    date cannot be read; with [IndexError] from the visualisation step,
    after the "not enough data" line, when a sample of Phase 1 has no row;
    and normally, after one call of the test, otherwise.  The exit status
    is 0 in the first and in the last case alike. *)
Theorem main_outcomes
    (read_csv : string -> option (list RawRow))
    (mannwhitneyu : list float -> list float -> Q * Q) :
  (read_csv "data/city_day.csv"%string = None ->
   outcome (main read_csv mannwhitneyu) = SysExit None /\
   exit_status (outcome (main read_csv mannwhitneyu)) = 0) /\
  (forall e,
     outcome (load_and_prepare_real_data read_csv "data/city_day.csv") = Raise e ->
     outcome (main read_csv mannwhitneyu) = Raise e) /\
  (forall df,
     outcome (load_and_prepare_real_data read_csv "data/city_day.csv") = Ok df ->
     (select_pm25 (during_label "Phase 1") df = [] \/
      select_pm25 (control_label "Phase 1") df = [] ->
      main read_csv mannwhitneyu
      = (trace (load_and_prepare_real_data read_csv "data/city_day.csv")
         ++ [ Printed (AnalysisHeader "Phase 1"); Printed NotEnoughData;
              Printed GeneratingVisualizations ],
         Raise IndexError) /\
      exit_status (outcome (main read_csv mannwhitneyu)) = 1) /\
     (select_pm25 (during_label "Phase 1") df <> [] ->
      select_pm25 (control_label "Phase 1") df <> [] ->
      outcome (main read_csv mannwhitneyu) = Ok tt /\
      exit_status (outcome (main read_csv mannwhitneyu)) = 0 /\
      filter is_test_call (trace (main read_csv mannwhitneyu))
      = [MannWhitneyU (select_pm25 (during_label "Phase 1") df)
                      (select_pm25 (control_label "Phase 1") df)])).
Proof.
  assert (Hphase : In "Phase 1"%string (map fst policy_periods)) by (cbn; tauto).
  pose proof (control_of_policy_phase _ Hphase) as Hname.
  split; [|split].
  - intros Hf.
    unfold main. rewrite (missing_file_runs read_csv _ Hf). split; reflexivity.
  - intros e He. unfold main.
    destruct (load_and_prepare_real_data read_csv "data/city_day.csv") as [tr r].
    cbn [outcome snd] in He. subst r. reflexivity.
  - intros df Hload. split.
    + intros Hempty.
      assert (E : empty (select_pm25 (during_label "Phase 1") df)
                  || empty (select_pm25 (control_label "Phase 1") df) = true).
      { destruct Hempty as [-> | ->]; [reflexivity | apply orb_true_r]. }
      unfold main. rewrite (bind_after_ok _ df _ Hload).
      rewrite (analysis_when_empty mannwhitneyu df "Phase 1" E).
      cbn [bind]. rewrite (visualizations_when_missing "Phase 1" Hname df E).
      cbn [bind trace outcome fst snd exit_status]. split; reflexivity.
    + intros Hd Hc.
      assert (Ed : empty (select_pm25 (during_label "Phase 1") df) = false)
        by (apply empty_false; exact Hd).
      assert (Ec : empty (select_pm25 (control_label "Phase 1") df) = false)
        by (apply empty_false; exact Hc).
      destruct (visualizations_when_both "Phase 1" Hname df Ed Ec)
        as (comp & cy & dy & _ & _ & Hviz).
      unfold main. rewrite (bind_after_ok _ df _ Hload).
      rewrite (analysis_when_tested mannwhitneyu df "Phase 1")
        by (rewrite Ed, Ec; reflexivity).
      cbn [bind]. rewrite Hviz. cbn [bind ret trace outcome fst snd exit_status].
      split; [reflexivity|]. split; [reflexivity|].
      rewrite filter_app.
      assert (Hnone : filter is_test_call
                        (trace (load_and_prepare_real_data read_csv "data/city_day.csv"))
                      = []).
      { apply load_makes_no_test_call. }
      rewrite Hnone. reflexivity.
Qed.

(** No file: status 0.  A file with one During day of Phase 1 and no
    Control day: status 1. *)
Lemma main_outcomes_witness :
  exit_status (outcome (main no_file sample_test)) = 0 /\
  exit_status (outcome (main sample_file sample_test)) = 1.
Proof.
  split.
  - exact (proj2 (proj1 (main_outcomes no_file sample_test) eq_refl)).
  - refine (proj2 (proj1 (proj2 (proj2 (main_outcomes sample_file sample_test))
                            _ eq_refl) _)).
    right. reflexivity.
Defined.

(** ** From the file to the samples *)

Lemma in_windowb_spec (k : kind) (s e d : Z) :
  in_windowb k s e d = true <-> in_window k s e d.
Proof.
  destruct k; cbn; rewrite andb_true_iff, ?Z.leb_le, ?Z.ltb_lt; tauto.
Qed.

Lemma select_by_window (labelled : list LRow) (phase : string) (dates : period)
    (s e : Z) (k : kind) :
  In (phase, dates) policy_periods -> bounds dates = Some (s, e) ->
  Forall (fun r => get_policy_status (Date (base r)) = Ok (policy_status r)) labelled ->
  select_pm25 (label_of k phase) labelled
  = map pm25 (filter (fun r => in_windowb k s e (Date r)) (map base labelled)).
Proof.
  intros Hin Hb. unfold select_pm25.
  induction 1 as [|r l Hr _ IH]; [reflexivity|].
  cbn [filter map].
  assert (E : String.eqb (policy_status r) (label_of k phase)
              = in_windowb k s e (Date (base r))).
  { apply eq_true_iff_eq. rewrite String.eqb_eq, in_windowb_spec.
    rewrite <- (policy_label_iff phase dates s e Hin Hb k (Date (base r))).
    rewrite Hr. split; [intros ->; reflexivity | apply Ok_inj]. }
  rewrite E. destruct (in_windowb k s e (Date (base r))); cbn [map]; rewrite IH; reflexivity.
Qed.

(** X15.  In the frame the loading step returns, the sample the
    comparison takes for a label of a phase of the script is the [pm25]
    column of the cleaned rows whose date lies in that window, in file
    order, and it holds no missing value. *)
Theorem samples_are_window_rows
    (read_csv : string -> option (list RawRow)) (filepath : string)
    (df : list RawRow) (rows : list Row) (labelled : list LRow)
    (phase : string) (dates : period) (s e : Z) (k : kind) :
  read_csv filepath = Some df ->
  index_by_date (delhi_rows df) = Ok rows ->
  outcome (load_and_prepare_real_data read_csv filepath) = Ok labelled ->
  In (phase, dates) policy_periods -> bounds dates = Some (s, e) ->
  select_pm25 (label_of k phase) labelled
  = map pm25 (filter (fun r => in_windowb k s e (Date r)) (clean rows)) /\
  Forall (fun v => v <> None) (select_pm25 (label_of k phase) labelled).
Proof.
  intros Hf Hi Hout Hin Hb.
  destruct (readable_or_not (delhi_rows df)) as [Hr | Hr].
  2:{ rewrite (index_by_date_raises _ Hr) in Hi. discriminate Hi. }
  destruct (load_run_readable read_csv filepath df Hf Hr)
    as (rows' & lab & Hi' & Hl & Hrun).
  rewrite Hi in Hi'. apply Ok_inj in Hi'. subst rows'.
  rewrite Hrun in Hout. apply Ok_inj in Hout. subst lab.
  destruct (apply_status_labels _ _ Hl) as [Hbase Hstat].
  assert (E : select_pm25 (label_of k phase) labelled
              = map pm25 (filter (fun r => in_windowb k s e (Date r)) (clean rows))).
  { rewrite (select_by_window labelled phase dates s e k Hin Hb Hstat), Hbase.
    reflexivity. }
  split; [exact E|]. rewrite E.
  apply Forall_forall. intros v Hv. apply in_map_iff in Hv.
  destruct Hv as (r & <- & Hr'). apply filter_In in Hr'. destruct Hr' as [Hr' _].
  pose proof (clean_complete rows) as Hc. rewrite Forall_forall in Hc.
  specialize (Hc r Hr'). unfold row_complete in Hc.
  destruct (pm25 r); [discriminate | discriminate Hc].
Qed.

(** The Delhi row of 2016-01-05 is the During sample of Phase 1. *)
Lemma samples_are_window_rows_witness :
  select_pm25 (label_of During "Phase 1")
    [ mkLRow (mkRow 16805 "Delhi" (Some (50 # 1)) (Some (30 # 1)) []) "During Phase 1" ]
  = [ Some (50 # 1) ].
Proof.
  refine (proj1 (samples_are_window_rows
                   sample_file "data/city_day.csv" _
                   [ mkRow 16805 "Delhi" (Some (50 # 1)) (Some (30 # 1)) [] ] _
                   "Phase 1"%string (mkPeriod "2016-01-01" "2016-01-15")
                   16801 16815 During eq_refl eq_refl eq_refl _ eq_refl)).
  cbn. tauto.
Defined.

(** ** File order *)

Lemma filled_dates (lp ln : float) (df : list Row) :
  map Date (ffill_from no2 set_no2 ln (ffill_from pm25 set_pm25 lp df)) = map Date df.
Proof.
  revert lp ln. induction df as [|r df IH]; intros lp ln; [reflexivity|].
  cbn [ffill_from map]. rewrite IH. reflexivity.
Qed.

Lemma filter_by_mask {A B : Type} (f : A -> bool) (g : A -> B) (l : list A) :
  map g (filter f l) = map fst (filter snd (combine (map g l) (map f l))).
Proof.
  induction l as [|x l IH]; [reflexivity|].
  cbn [filter map combine snd]. destruct (f x); cbn [map fst]; rewrite IH; reflexivity.
Qed.

Lemma filled_columns (lp ln : float) (df df' : list Row) :
  map columns df = map columns df' ->
  map columns (ffill_from no2 set_no2 ln (ffill_from pm25 set_pm25 lp df))
  = map columns (ffill_from no2 set_no2 ln (ffill_from pm25 set_pm25 lp df')).
Proof.
  revert lp ln df'. induction df as [|r df IH]; intros lp ln [|r' df'] H;
    try discriminate H; [reflexivity|].
  cbn [map] in H.
  pose proof (f_equal (@tl _) H) as Hrest. cbn [tl] in Hrest.
  pose proof (f_equal (hd (columns r)) H) as Hr. cbn [hd] in Hr.
  unfold columns in Hr. inversion Hr as [[Hc Hp Hn Ho]].
  cbn [ffill_from map]. cbn [City pm25 no2 others set_no2 set_pm25].
  rewrite Hp, Hn. f_equal.
  - unfold columns, set_no2, set_pm25. cbn [City pm25 no2 others].
    rewrite Hc, Ho. reflexivity.
  - apply IH. exact Hrest.
Qed.

Lemma map_filter_through {A B : Type} (f : B -> bool) (g : A -> B) (l : list A) :
  map g (filter (fun x => f (g x)) l) = filter f (map g l).
Proof.
  induction l as [|x l IH]; [reflexivity|].
  cbn [filter map]. destruct (f (g x)); cbn [map]; rewrite IH; reflexivity.
Qed.

(** X16.  Nothing in the cleaning sorts the rows or looks at their dates:
    the fills keep every date at its place; the dates of the cleaned frame
    are the dates of the input in file order with those of the dropped rows
    left out; and two files with the same columns row by row are filled and
    cleaned to the same columns, whatever their dates.  So a value is
    carried down the file, also onto a row with an earlier date. *)
Theorem cleaning_keeps_file_order (df : list Row) :
  map Date (filled df) = map Date df /\
  map Date (clean df)
  = map fst (filter snd (combine (map Date df) (map row_complete (filled df)))) /\
  (forall df',
     map columns df = map columns df' ->
     map columns (filled df) = map columns (filled df') /\
     map columns (clean df) = map columns (clean df')).
Proof.
  split; [apply filled_dates|]. split.
  - change (clean df) with (filter row_complete (filled df)).
    rewrite (filter_by_mask row_complete Date (filled df)).
    unfold filled, ffill. rewrite filled_dates. reflexivity.
  - intros df' H.
    assert (E : map columns (filled df) = map columns (filled df'))
      by (apply filled_columns; exact H).
    split; [exact E|].
    change (clean df) with (filter (fun r => columns_complete (columns r)) (filled df)).
    change (clean df') with (filter (fun r => columns_complete (columns r)) (filled df')).
    rewrite !map_filter_through, E. reflexivity.
Qed.

(** The row of 2016-01-01 stands below that of 2016-01-03 in the file
    and takes its value, as it would with the dates in order. *)
Lemma cleaning_keeps_file_order_witness :
  map columns (filled sample_unsorted)
  = map columns (filled [ mkRow 16801 "Delhi" (Some (80 # 1)) (Some (40 # 1)) [];
                           mkRow 16803 "Delhi" None (Some (41 # 1)) [] ]) /\
  map pm25 (filled sample_unsorted) = [Some (80 # 1); Some (80 # 1)] /\
  map Date (clean sample_unsorted) = [16803; 16801].
Proof.
  split; [|split; reflexivity].
  exact (proj1 (proj2 (proj2 (cleaning_keeps_file_order sample_unsorted)) _ eq_refl)).
Defined.

(** ** Labels as strings *)

(** X17.  The labels built with f-strings are unambiguous: two labels are
    equal only for the same kind of window and the same phase name, and no
    label of a window is "Normal Day"; so the rows the comparison selects
    by string equality are those of one window of one phase. *)
Theorem labels_are_unambiguous (k k' : kind) (phase phase' : string) (df : list LRow) :
  (label_of k phase = label_of k' phase' <-> k = k' /\ phase = phase') /\
  label_of k phase <> "Normal Day"%string /\
  (forall r, In r (filter (fun r => String.eqb (policy_status r) (label_of k phase)) df) ->
             policy_status r = label_of k phase /\
             (policy_status r = label_of k' phase' -> k = k' /\ phase = phase')).
Proof.
  split; [|split].
  - split; [apply label_of_inj | intros [-> ->]; reflexivity].
  - apply label_not_normal.
  - intros r Hr. apply filter_In in Hr. destruct Hr as [_ Hr].
    apply String.eqb_eq in Hr. split; [exact Hr|].
    rewrite Hr. apply label_of_inj.
Qed.
